(** * Suno API: a shallow embedding of [backend/app/main.py]

    The service converts a video URL to an MP3 file in three steps: the
    conversion endpoint validates the request and schedules a background
    extraction job, the job runs the external extractor and checks its output,
    and the download endpoint serves the stored file.  A retention loop deletes
    old files.

    The embedding follows the Python text function by function.  Python [str]
    values are Rocq strings (one [ascii] per character, so characters are
    limited to code points below 256), integers are [Z] or [N], exceptions are
    values of the type [exn], and everything that touches the process
    environment (file system, clock, entropy, background task list) runs in a
    state-and-exception monad over the record [world].

    The rate limiter decorators ([limiter.limit]) and the CORS middleware are
    applied by the framework before a handler is entered; the model describes a
    request that has been admitted by them. *)

From Stdlib Require Import ZArith NArith QArith String Ascii List Bool Lia.
From stdpp Require Import gmap strings list pretty.

Import ListNotations.
Local Open Scope Z_scope.

(** ** Python string operations *)

Module Str.

Definition LF : ascii := ascii_of_nat 10.

Definition code (c : ascii) : N := N_of_ascii c.

Definition between (lo hi c : ascii) : bool :=
  ((code lo <=? code c) && (code c <=? code hi))%N.

(** [s.endswith(p)]: some tail of [s] is [p]. *)
Fixpoint endswith (s p : string) : bool :=
  String.eqb s p ||
  match s with
  | EmptyString => false
  | String _ s' => endswith s' p
  end.

(** [s] without a given leading string, when it has it. *)
Fixpoint strip_prefix (p s : string) : option string :=
  match p, s with
  | EmptyString, _ => Some s
  | String a p', String b s' =>
      if Ascii.eqb a b then strip_prefix p' s' else None
  | String _ _, EmptyString => None
  end.

(** [s.startswith(p)] *)
Definition startswith (s p : string) : bool :=
  match strip_prefix p s with
  | Some _ => true
  | None => false
  end.

Fixpoint forallb (f : ascii -> bool) (s : string) : bool :=
  match s with
  | EmptyString => true
  | String c s' => f c && forallb f s'
  end.

(** [s[:-1]] when [s] ends with a line feed. *)
Fixpoint strip_final_newline (s : string) : option string :=
  match s with
  | EmptyString => None
  | String c EmptyString => if Ascii.eqb c LF then Some EmptyString else None
  | String c s' =>
      match strip_final_newline s' with
      | Some t => Some (String c t)
      | None => None
      end
  end.

End Str.

(** ** Regular expressions, as the [re] module matches them

    Only the constructs of the two patterns of the program are needed:
    literals, character classes, grouping, alternation, [?], [+], [*], [{n}]
    and the anchors [^] and [$].  Matching is by derivatives; the backtracking
    matcher of [re] finds a match exactly when one exists, so for the question
    the program asks ([re.match(...)] is or is not [None]) the two agree. *)

Module Re.

Inductive regex : Type :=
| Void
| Eps
| Class (p : ascii -> bool)
| Cat (r1 r2 : regex)
| Alt (r1 r2 : regex)
| Star (r : regex).

Fixpoint Lit (s : string) : regex :=
  match s with
  | EmptyString => Eps
  | String c s' => Cat (Class (Ascii.eqb c)) (Lit s')
  end.

(** [r?], [r+] and [r{n}] *)
Definition Opt (r : regex) : regex := Alt r Eps.
Definition Plus (r : regex) : regex := Cat r (Star r).
Fixpoint Times (n : nat) (r : regex) : regex :=
  match n with
  | O => Eps
  | S n' => Cat r (Times n' r)
  end.

Fixpoint nullable (r : regex) : bool :=
  match r with
  | Void => false
  | Eps => true
  | Class _ => false
  | Cat r1 r2 => nullable r1 && nullable r2
  | Alt r1 r2 => nullable r1 || nullable r2
  | Star _ => true
  end.

(** Constructors that absorb [Void] and [Eps], to keep derivatives small. *)
Definition cat (r1 r2 : regex) : regex :=
  match r1 with
  | Void => Void
  | Eps => r2
  | _ => Cat r1 r2
  end.

Definition alt (r1 r2 : regex) : regex :=
  match r1, r2 with
  | Void, _ => r2
  | _, Void => r1
  | _, _ => Alt r1 r2
  end.

Fixpoint deriv (c : ascii) (r : regex) : regex :=
  match r with
  | Void => Void
  | Eps => Void
  | Class p => if p c then Eps else Void
  | Cat r1 r2 =>
      alt (cat (deriv c r1) r2) (if nullable r1 then deriv c r2 else Void)
  | Alt r1 r2 => alt (deriv c r1) (deriv c r2)
  | Star r1 => cat (deriv c r1) (Star r1)
  end.

(** The whole of [s] is in the language of [r]. *)
Fixpoint fullmatch (r : regex) (s : string) : bool :=
  match s with
  | EmptyString => nullable r
  | String c s' => fullmatch (deriv c r) s'
  end.

(** [re.match('^' r '$', s) is not None].  Without [re.MULTILINE], [^]
    holds at the start of the string and [$] holds at the end of the string
    and also just before a line feed that is the last character. *)
Definition match_anchored (r : regex) (s : string) : bool :=
  fullmatch r s ||
  match Str.strip_final_newline s with
  | Some s' => fullmatch r s'
  | None => false
  end.

(** Character classes of the two patterns. *)
Definition digit (c : ascii) : bool := Str.between "0" "9" c.
Definition lower_hex (c : ascii) : bool := Str.between "a" "f" c.
Definition upper (c : ascii) : bool := Str.between "A" "Z" c.
Definition lower (c : ascii) : bool := Str.between "a" "z" c.

(** [\s] on a [str] pattern: the characters for which [str.isspace] holds,
    here those below 256. *)
Definition space (c : ascii) : bool :=
  let n := Str.code c in
  ((9 <=? n) && (n <=? 13) || (28 <=? n) && (n <=? 32)
   || (n =? 133) || (n =? 160))%N.

(** [[0-9a-f-]] *)
Definition hex_or_hyphen (c : ascii) : bool :=
  digit c || lower_hex c || Ascii.eqb c "-".

(** [[A-Za-z0-9_-]] *)
Definition video_id_char (c : ascii) : bool :=
  upper c || lower c || digit c || Ascii.eqb c "_" || Ascii.eqb c "-".

(** [[\?&]] *)
Definition query_sep (c : ascii) : bool :=
  Ascii.eqb c "?" || Ascii.eqb c "&".

(** [[^&\s]] *)
Definition query_char (c : ascii) : bool :=
  negb (Ascii.eqb c "&" || space c).

End Re.

(** ** The process environment *)

(** What a path of the file system holds.  A symbolic link is stored with the
    canonical path it resolves to; a link whose target holds no regular file
    dangles.  Directories below the storage folder are not modelled. *)
Inductive node : Type :=
| File (mtime : Z) (size : Z) (readable : bool)
| Symlink (target : string).

(** Python exceptions the program raises or receives.  All of them derive from
    [Exception]; [FileNotFoundError] is the [OSError] of a missing path.  The
    [UnicodeDecodeError] that [subprocess.run(..., text=True)] raises on output
    it cannot decode is a [ValueError], and is written as one. *)
Inductive exn : Type :=
| HTTPException (status_code : Z) (detail : string)
| ValueError (msg : string)
| KeyError (key : string)
| FileNotFoundError (msg : string)
| CalledProcessError (stderr : string).

(** [str(e)] *)
Definition str_exn (e : exn) : string :=
  match e with
  | HTTPException _ d => d
  | ValueError m => m
  | KeyError k => k
  | FileNotFoundError m => m
  | CalledProcessError s => s
  end.

Inductive event : Type :=
| Syscall (function : string) (path : string)
| Spawned (command : list string)
| Printed (text : string)
| Slept (seconds : Z).

(** A scheduled call [download_audio(youtube_url, quality, filename)]. *)
Record task : Type := Task {
  task_url : string;
  task_quality : string;
  task_filename : string
}.

Record world : Type := World {
  files : gmap string node;       (* the file system, by absolute path *)
  free_space : Z;                 (* shutil.disk_usage(DOWNLOAD_FOLDER).free *)
  now : Z;                        (* datetime.now(), microseconds of local time *)
  urandom : nat -> N;             (* the results of os.urandom(16), in order *)
  draws : nat;                    (* how many of them have been used *)
  background_tasks : list task;   (* the request's BackgroundTasks, oldest first *)
  trace : list event              (* what the process did, newest first *)
}.

Inductive outcome (A : Type) : Type :=
| Return (a : A)
| Raise (e : exn).
Arguments Return {A} a.
Arguments Raise {A} e.

(** Computations that read and change the world and may raise. *)
Definition M (A : Type) : Type := world -> outcome A * world.

Definition ret {A} (a : A) : M A := fun w => (Return a, w).

Definition bind {A B} (m : M A) (k : A -> M B) : M B :=
  fun w =>
    match m w with
    | (Return a, w') => k a w'
    | (Raise e, w') => (Raise e, w')
    end.

Definition raise {A} (e : exn) : M A := fun w => (Raise e, w).

Declare Scope py_scope.
Delimit Scope py_scope with py.
Notation "x <- m ;; k" := (bind m (fun x => k))
  (at level 100, m at next level, right associativity) : py_scope.
Notation "m ;; k" := (bind m (fun _ => k))
  (at level 100, right associativity) : py_scope.
Local Open Scope py_scope.

(** [try: body except C1: h1 except C2: h2 ...]: the first clause whose class
    contains the exception handles it; an exception raised by a handler is not
    looked up again. *)
Fixpoint dispatch {A} (clauses : list ((exn -> bool) * (exn -> M A)))
    (e : exn) : M A :=
  match clauses with
  | [] => raise e
  | (cls, handler) :: rest => if cls e then handler e else dispatch rest e
  end.

Definition try_except {A} (body : M A)
    (clauses : list ((exn -> bool) * (exn -> M A))) : M A :=
  fun w =>
    match body w with
    | (Return a, w') => (Return a, w')
    | (Raise e, w') => dispatch clauses e w'
    end.

(** Exception classes named in [except] clauses. *)
Definition Exception (e : exn) : bool := true.
Definition is_ValueError (e : exn) : bool :=
  match e with ValueError _ => true | _ => false end.
Definition is_CalledProcessError (e : exn) : bool :=
  match e with CalledProcessError _ => true | _ => false end.

Fixpoint for_each {A} (l : list A) (body : A -> M unit) : M unit :=
  match l with
  | [] => ret tt
  | x :: rest => body x ;; for_each rest body
  end.

(** [os.path.join(a, b)] on POSIX, for two components. *)
Definition os_path_join (a b : string) : string :=
  if Str.startswith b "/" then b
  else if String.eqb a EmptyString || Str.endswith a "/" then a +:+ b
  else a +:+ "/" +:+ b.

(** [os.stat] through a symbolic link: time of last change, size, and whether
    the process may read the file. *)
Definition stat (fs : gmap string node) (p : string) : option (Z * Z * bool) :=
  match fs !! p with
  | Some (File m s r) => Some (m, s, r)
  | Some (Symlink t) =>
      match fs !! t with
      | Some (File m s r) => Some (m, s, r)
      | _ => None
      end
  | None => None
  end.

Definition exists_at (fs : gmap string node) (p : string) : bool :=
  match stat fs p with
  | Some _ => true
  | None => false
  end.

(** The world after one more event. *)
Definition log (e : event) (w : world) : world :=
  World (files w) (free_space w) (now w) (urandom w) (draws w)
        (background_tasks w) (e :: trace w).

Definition with_files (fs : gmap string node) (w : world) : world :=
  World fs (free_space w) (now w) (urandom w) (draws w)
        (background_tasks w) (trace w).

(** The [OSError] of a call on a path that holds nothing, with the text
    [str(e)] gives. *)
Definition ENOENT (p : string) : exn :=
  FileNotFoundError ("[Errno 2] No such file or directory: '" +:+ p +:+ "'").

Definition os_path_exists (p : string) : M bool :=
  fun w => (Return (exists_at (files w) p), log (Syscall "os.path.exists" p) w).

Definition os_path_getmtime (p : string) : M Z :=
  fun w =>
    (match stat (files w) p with
     | Some (m, _, _) => Return m
     | None => Raise (ENOENT p)
     end,
     log (Syscall "os.path.getmtime" p) w).

Definition os_path_getsize (p : string) : M Z :=
  fun w =>
    (match stat (files w) p with
     | Some (_, s, _) => Return s
     | None => Raise (ENOENT p)
     end,
     log (Syscall "os.path.getsize" p) w).

(** [os.access(p, os.R_OK)] *)
Definition os_access_R_OK (p : string) : M bool :=
  fun w =>
    (match stat (files w) p with
     | Some (_, _, r) => Return r
     | None => Return false
     end,
     log (Syscall "os.access" p) w).

(** [os.remove(p)] unlinks the entry itself, a link included. *)
Definition os_remove (p : string) : M unit :=
  fun w =>
    match files w !! p with
    | Some _ => (Return tt, with_files (delete p (files w)) (log (Syscall "os.remove" p) w))
    | None => (Raise (ENOENT p), log (Syscall "os.remove" p) w)
    end.

(** [shutil.disk_usage(p).free], for a folder that exists: the program
    creates the storage folder when it starts. *)
Definition shutil_disk_usage_free (p : string) : M Z :=
  fun w => (Return (free_space w), log (Syscall "shutil.disk_usage" p) w).

Definition datetime_now : M Z := fun w => (Return (now w), w).

Definition print (text : string) : M unit :=
  fun w => (Return tt, log (Printed text) w).

(** [await asyncio.sleep(seconds)]: the clock has advanced when the task
    resumes. *)
Definition slept (seconds : Z) (w : world) : world :=
  World (files w) (free_space w) (now w + seconds * 1000000)
        (urandom w) (draws w) (background_tasks w) (Slept seconds :: trace w).

Definition asyncio_sleep (seconds : Z) : M unit :=
  fun w => (Return tt, slept seconds w).

(** [os.urandom(16)] read as a big-endian integer. *)
Definition drawn (w : world) : world :=
  World (files w) (free_space w) (now w) (urandom w) (S (draws w))
        (background_tasks w) (trace w).

Definition os_urandom16 : M N :=
  fun w => (Return (urandom w (draws w) mod 2 ^ 128)%N, drawn w).

(** [background_tasks.add_task(download_audio, url, quality, filename)] *)
Definition scheduled (t : task) (w : world) : world :=
  World (files w) (free_space w) (now w) (urandom w) (draws w)
        (background_tasks w ++ [t]) (trace w).

Definition add_task (t : task) : M unit :=
  fun w => (Return tt, scheduled t w).

(** ** Library functions the program calls *)

(** [str(uuid.uuid4())].  [uuid4] builds the identifier from sixteen random
    bytes and stamps the variant and version bits; [str] prints its 128 bits as
    32 lower-case hexadecimal digits in groups of 8, 4, 4, 4 and 12. *)
Module Uuid.

Definition uuid4 (r : N) : N :=
  let i := N.ldiff r (N.shiftl 0xc000 48) in
  let i := N.lor i (N.shiftl 0x8000 48) in
  let i := N.ldiff i (N.shiftl 0xf000 64) in
  N.lor i (N.shiftl 4 76).

Definition hex_digit (d : N) : ascii :=
  match String.get (N.to_nat d) "0123456789abcdef" with
  | Some c => c
  | None => "0"%char
  end.

(** The hexadecimal digit of weight [16 ^ k]. *)
Definition nibble (i : N) (k : nat) : ascii :=
  hex_digit (N.land (N.shiftr i (4 * N.of_nat k)) 15).

(** ['%032x' % i], most significant digit first. *)
Definition hex32 (i : N) : list ascii := map (nibble i) (rev (seq 0 32)).

Definition group (l : list ascii) (start len : nat) : string :=
  string_of_list_ascii (firstn len (skipn start l)).

Definition format (h : list ascii) : string :=
  group h 0 8 +:+ "-" +:+ group h 8 4 +:+ "-" +:+ group h 12 4 +:+ "-"
  +:+ group h 16 4 +:+ "-" +:+ group h 20 12.

Definition str (i : N) : string := format (hex32 i).

End Uuid.

(** [datetime.strftime('%Y%m%d_%H%M%S')] of a local time given in
    microseconds since 1970-01-01 00:00:00, for the years 1970 to 9999. *)
Module Calendar.

Definition pad (width : nat) (n : Z) : string :=
  let s := pretty n in
  string_of_list_ascii (repeat "0"%char (width - String.length s)) +:+ s.

(** Year, month and day of a day number counted from 1970-01-01, in the
    proleptic Gregorian calendar. *)
Definition civil (days : Z) : Z * Z * Z :=
  let z := days + 719468 in
  let era := z / 146097 in
  let doe := z - era * 146097 in
  let yoe := (doe - doe / 1460 + doe / 36524 - doe / 146096) / 365 in
  let doy := doe - (365 * yoe + yoe / 4 - yoe / 100) in
  let mp := (5 * doy + 2) / 153 in
  let d := doy - (153 * mp + 2) / 5 + 1 in
  let m := if mp <? 10 then mp + 3 else mp - 9 in
  let y := yoe + era * 400 + (if m <=? 2 then 1 else 0) in
  (y, m, d).

Definition strftime_Ymd_HMS (t : Z) : string :=
  let secs := t / 1000000 in
  let '(y, m, d) := civil (secs / 86400) in
  let sod := secs mod 86400 in
  pad 4 y +:+ pad 2 m +:+ pad 2 d +:+ "_"
  +:+ pad 2 (sod / 3600) +:+ pad 2 (sod mod 3600 / 60) +:+ pad 2 (sod mod 60).

End Calendar.

(** ** The program *)

(** [ConvertRequest]: the validated request model. *)
Record ConvertRequest : Type := {
  youtube_url : string;
  quality : string
}.

(** The JSON body of [POST /convert] before validation; a field may be
    absent. *)
Record convert_body : Type := {
  body_youtube_url : option string;
  body_quality : option string
}.

Inductive response : Type :=
| JSONResponse (status_code : Z) (content : list (string * string))
| PlainTextResponse (status_code : Z) (content : string)
| FileResponse (path media_type filename : string).

Definition status (r : response) : Z :=
  match r with
  | JSONResponse s _ => s
  | PlainTextResponse s _ => s
  | FileResponse _ _ _ => 200
  end.

(** [youtube_regex] of [validate_youtube_url], between its anchors (spaces
    added between the parts):
    [(https?://)? (www\.)? (youtube\.com/watch\?v=|youtu\.be/) [A-Za-z0-9_-]+ ( [\?&] [^&\s]* )*] *)
Definition youtube_regex : Re.regex :=
  Re.Cat (Re.Opt (Re.Cat (Re.Lit "http") (Re.Cat (Re.Opt (Re.Lit "s")) (Re.Lit "://"))))
  (Re.Cat (Re.Opt (Re.Lit "www."))
  (Re.Cat (Re.Alt (Re.Lit "youtube.com/watch?v=") (Re.Lit "youtu.be/"))
  (Re.Cat (Re.Plus (Re.Class Re.video_id_char))
          (Re.Star (Re.Cat (Re.Class Re.query_sep)
                           (Re.Star (Re.Class Re.query_char))))))).

(** The pattern of [download], between its anchors: [[0-9a-f-]{36}] *)
Definition file_id_regex : Re.regex := Re.Times 36 (Re.Class Re.hex_or_hyphen).

Definition validate_youtube_url (v : string) : outcome string :=
  if negb (Re.match_anchored youtube_regex v)
  then Raise (ValueError "Invalid YouTube URL. Please provide a valid YouTube video URL.")
  else Return v.

Definition validate_quality (v : string) : outcome string :=
  if negb (existsb (String.eqb v) ["high"; "medium"; "low"])
  then Raise (ValueError "Quality must be high, medium, or low")
  else Return v.

(** Building a [ConvertRequest] from the body, as pydantic does: every field
    is checked, [quality] defaults to ["high"], and the errors of all fields
    are collected.  The result is the model or the list of (field, message). *)
Definition field_errors (field : string) (r : outcome string) : list (string * string) :=
  match r with
  | Return _ => []
  | Raise e => [(field, str_exn e)]
  end.

Definition parse_ConvertRequest (b : convert_body)
    : list (string * string) + ConvertRequest :=
  let url := match body_youtube_url b with
             | Some v => validate_youtube_url v
             | None => Raise (ValueError "field required")
             end in
  let q := match body_quality b with
           | Some v => validate_quality v
           | None => Return "high"
           end in
  match url, q with
  | Return u, Return v => inr {| youtube_url := u; quality := v |}
  | _, _ => inl (field_errors "youtube_url" url ++ field_errors "quality" q)
  end.

(** Configuration *)
Definition MAX_FILE_SIZE_MB : Z := 100.
Definition FILE_RETENTION_HOURS : Z := 24.
Definition ALLOWED_EXTENSIONS : list string := [".mp3"].

(** [timedelta(hours=h)] in microseconds. *)
Definition timedelta_hours (h : Z) : Z := h * 3600 * 1000000.

Definition quality_options : list (string * list string) :=
  [ ("high", ["--audio-quality"; "0"]);
    ("medium", ["--audio-quality"; "5"]);
    ("low", ["--audio-quality"; "9"]) ].

(** [d[k]] on a dict literal *)
Fixpoint dict_get (d : list (string * list string)) (k : string)
    : option (list string) :=
  match d with
  | [] => None
  | (k', v) :: rest => if String.eqb k k' then Some v else dict_get rest k
  end.

Definition getitem (d : list (string * list string)) (k : string)
    : M (list string) :=
  match dict_get d k with
  | Some v => ret v
  | None => raise (KeyError k)
  end.

Section Server.

(** [os.path.join(os.path.dirname(__file__), "downloads")] *)
Variable DOWNLOAD_FOLDER : string.

(** The external extractor: what running a command line does to the file
    system and how the call ends.
    [subprocess.run(..., capture_output=True, text=True, check=True)] raises
    an [OSError] when the program cannot be started, raises
    [UnicodeDecodeError] when the captured output cannot be decoded, whatever
    the exit status, returns when the exit status is zero, and raises
    [CalledProcessError] with the captured stderr when it is not. *)
Variable yt_dlp : list string -> gmap string node -> outcome unit * gmap string node.

Definition subprocess_run (command : list string) : M unit :=
  fun w =>
    let (r, fs') := yt_dlp command (files w) in
    (r, with_files fs' (log (Spawned command) w)).

(** The canonical form of the storage folder, which may itself be reached
    through a symbolic link. *)
Definition canonical_folder (fs : gmap string node) : string :=
  match fs !! DOWNLOAD_FOLDER with
  | Some (Symlink t) => t
  | _ => DOWNLOAD_FOLDER
  end.

(** [os.path.realpath(p)] for the storage folder and the paths directly
    under it: a symbolic link resolves to its target, anything else keeps its
    name under the canonical folder. *)
Definition realpath (fs : gmap string node) (p : string) : string :=
  match fs !! p with
  | Some (Symlink t) => t
  | _ =>
      match Str.strip_prefix DOWNLOAD_FOLDER p with
      | Some rest => canonical_folder fs +:+ rest
      | None => p
      end
  end.

Definition os_path_realpath (p : string) : M string :=
  fun w => (Return (realpath (files w) p), log (Syscall "os.path.realpath" p) w).

(** The name under which a path is an entry of the storage folder. *)
Definition entry_name (p : string) : option string :=
  match Str.strip_prefix (os_path_join DOWNLOAD_FOLDER EmptyString) p with
  | Some n =>
      if String.eqb n EmptyString
         || negb (Str.forallb (fun c => negb (Ascii.eqb c "/")) n)
      then None else Some n
  | None => None
  end.

(** [os.listdir(DOWNLOAD_FOLDER)]; the order is the one the map's listing
    gives. *)
Definition listing (fs : gmap string node) : list string :=
  omap (fun kv => entry_name (fst kv)) (map_to_list fs).

Definition os_listdir : M (list string) :=
  fun w => (Return (listing (files w)),
            log (Syscall "os.listdir" DOWNLOAD_FOLDER) w).

(** *** Retention loop *)

(** The body of the [for] loop of [cleanup_old_files], at the time [t] that
    [datetime.now()] gave before the loop. *)
Definition sweep_file (t : Z) (filename : string) : M unit :=
  let filepath := os_path_join DOWNLOAD_FOLDER filename in
  file_modified <- os_path_getmtime filepath ;;
  if timedelta_hours FILE_RETENTION_HOURS <? t - file_modified
  then os_remove filepath
  else ret tt.

(** The body of the [try] block of [cleanup_old_files]. *)
Definition sweep : M unit :=
  t <- datetime_now ;;
  names <- os_listdir ;;
  for_each names (sweep_file t).

(** One turn of the [while True] loop. *)
Definition cleanup_iteration : M unit :=
  try_except sweep
    [(Exception, fun e => print ("Cleanup error: " +:+ str_exn e))] ;;
  asyncio_sleep 3600.

(** The first [n] turns of [cleanup_old_files]; the loop has no exit. *)
Fixpoint cleanup_old_files (n : nat) : M unit :=
  match n with
  | O => ret tt
  | S n' => cleanup_iteration ;; cleanup_old_files n'
  end.

(** *** Background extraction job *)

(** [os.path.getsize(filename) / (1024 * 1024)].  Python divides two
    integers into a float; the division by a power of two is exact for every
    size below [2^53] and monotone above, so comparing the float with 100
    decides as comparing the exact quotient does. *)
Definition file_size_mb (size : Z) : Q := inject_Z size / inject_Z (1024 * 1024).

(** The [command] list of [download_audio]. *)
Definition command_line (opts : list string) (filename youtube_url : string)
    : list string :=
  ["yt-dlp"; "-x"; "--audio-format"; "mp3"] ++ opts ++
  ["--max-filesize"; pretty MAX_FILE_SIZE_MB +:+ "M"; "-o"; filename;
   youtube_url].

Definition download_audio (youtube_url quality filename : string) : M unit :=
  try_except
    (opts <- getitem quality_options quality ;;
     let command := command_line opts filename youtube_url in
     subprocess_run command ;;
     created <- os_path_exists filename ;;
     if created then
       size <- os_path_getsize filename ;;
       if negb (Qle_bool (file_size_mb size) (inject_Z MAX_FILE_SIZE_MB))
       then os_remove filename ;;
            raise (ValueError ("File size exceeds limit of "
                               +:+ pretty MAX_FILE_SIZE_MB +:+ "MB"))
       else ret tt
     else raise (FileNotFoundError "Failed to create output file"))
    [(is_CalledProcessError, fun e =>
        leftover <- os_path_exists filename ;;
        (if leftover then os_remove filename else ret tt) ;;
        raise (ValueError ("YouTube download failed: " +:+ str_exn e)))].

(** *** Conversion endpoint *)

Definition convert (convert_request : ConvertRequest)
    : M (list (string * string)) :=
  print ("Received convert request for URL: " +:+ youtube_url convert_request) ;;
  r <- os_urandom16 ;;
  let file_id := Uuid.str (Uuid.uuid4 r) in
  let output_path := os_path_join DOWNLOAD_FOLDER (file_id +:+ ".mp3") in
  free <- shutil_disk_usage_free DOWNLOAD_FOLDER ;;
  if free <? MAX_FILE_SIZE_MB * 1024 * 1024 * 2
  then raise (HTTPException 507 "Insufficient storage space. Please try again later.")
  else
    try_except
      (add_task (Task (youtube_url convert_request) (quality convert_request)
                      output_path) ;;
       ret [ ("download_url", "/download/" +:+ file_id);
             ("status", "processing");
             ("message", "Your file is being processed. Please wait a few moments before downloading.");
             ("estimated_wait_time", "15-30 seconds") ])
      [ (is_ValueError, fun e => raise (HTTPException 400 (str_exn e)));
        (Exception, fun e =>
           raise (HTTPException 500 "An unexpected error occurred. Please try again later.")) ].

(** *** Download endpoint *)

Definition download (file_id : string) : M response :=
  if negb (Re.match_anchored file_id_regex file_id)
  then raise (HTTPException 400 "Invalid file ID format")
  else
    let filename := file_id +:+ ".mp3" in
    if negb (existsb (Str.endswith filename) ALLOWED_EXTENSIONS)
    then raise (HTTPException 400 "Invalid file type requested")
    else
      let path := os_path_join DOWNLOAD_FOLDER filename in
      try_except
        (real_path <- os_path_realpath path ;;
         real_folder <- os_path_realpath DOWNLOAD_FOLDER ;;
         if negb (Str.startswith real_path real_folder)
         then raise (HTTPException 403 "Access denied")
         else ret tt)
        [(Exception, fun _ => raise (HTTPException 400 "Invalid file path"))] ;;
      present <- os_path_exists path ;;
      if negb present
      then raise (HTTPException 404 "File not found. It might still be processing or has expired.")
      else
        readable <- os_access_R_OK path ;;
        if negb readable
        then raise (HTTPException 500 "Server cannot access the file. Please try again later.")
        else
          try_except
            (t <- datetime_now ;;
             ret (FileResponse path "audio/mpeg"
                    ("youtube_audio_" +:+ Calendar.strftime_Ymd_HMS t +:+ ".mp3")))
            [(Exception, fun e =>
                raise (HTTPException 500 "Failed to send file. Please try again later."))].

(** *** The routes, as the framework runs them *)

(** An [HTTPException] raised by a handler becomes a JSON response with its
    status and detail; any other exception becomes the plain-text server error
    of the framework. *)
Definition respond {A} (render : A -> response) (handler : M A)
    : world -> response * world :=
  fun w =>
    match handler w with
    | (Return a, w') => (render a, w')
    | (Raise (HTTPException s d), w') => (JSONResponse s [("detail", d)], w')
    | (Raise _, w') => (PlainTextResponse 500 "Internal Server Error", w')
    end.

(** The status with which the framework answers a body that does not build
    the request model.  [main.py] registers an exception handler for
    [RateLimitExceeded] only, so the framework's own handler for request
    validation errors is in force; the handler body is not entered. *)
Definition HTTP_422_UNPROCESSABLE_ENTITY : Z := 422.

(** [POST /convert] *)
Definition post_convert (b : convert_body) : world -> response * world :=
  match parse_ConvertRequest b with
  | inl errors => fun w => (JSONResponse HTTP_422_UNPROCESSABLE_ENTITY errors, w)
  | inr convert_request => respond (JSONResponse 200) (convert convert_request)
  end.

(** The path template [/download/{file_id}]: the parameter takes one path
    segment, which is not empty and holds no slash. *)
Definition routed (file_id : string) : bool :=
  negb (String.eqb file_id EmptyString)
  && Str.forallb (fun c => negb (Ascii.eqb c "/")) file_id.

(** [GET /download/{file_id}].  A path that the template does not match is
    answered by the router, and the handler is not entered. *)
Definition get_download (file_id : string) : world -> response * world :=
  fun w =>
    if routed file_id
    then respond (fun r => r) (download file_id) w
    else (JSONResponse 404 [("detail", "Not Found")], w).

(** Running the scheduled jobs, in order, after the response has been sent. *)
Fixpoint run_background_tasks (ts : list task) : M unit :=
  match ts with
  | [] => ret tt
  | t :: rest =>
      download_audio (task_url t) (task_quality t) (task_filename t) ;;
      run_background_tasks rest
  end.

End Server.

(** * Vocabulary of the statements *)

(** The shape the specification gives to a token: 36 characters, each of them
    a lower-case hexadecimal digit or a hyphen. *)
Definition token_shape (s : string) : bool :=
  Nat.eqb (String.length s) 36 && Str.forallb Re.hex_or_hyphen s.

(** The quality a body asks for, with the default of the model. *)
Definition quality_of (b : convert_body) : string :=
  match body_quality b with
  | Some q => q
  | None => "high"
  end.

Definition known_quality (q : string) : bool :=
  existsb (String.eqb q) ["high"; "medium"; "low"].

Definition body_of (url : string) (q : option string) : convert_body :=
  {| body_youtube_url := Some url; body_quality := q |}.

(** The tasks a request added to the list. *)
Definition new_tasks (w w' : world) : list task :=
  drop (length (background_tasks w)) (background_tasks w').

Section Worlds.

Variable DOWNLOAD_FOLDER : string.

(** The world after the two [realpath] calls, after the existence test and
    after the permission test. *)
Definition after_resolve (file_id : string) (w : world) : world :=
  let path := os_path_join DOWNLOAD_FOLDER (file_id +:+ ".mp3") in
  log (Syscall "os.path.realpath" DOWNLOAD_FOLDER)
    (log (Syscall "os.path.realpath" path) w).

Definition after_lookup (file_id : string) (w : world) : world :=
  let path := os_path_join DOWNLOAD_FOLDER (file_id +:+ ".mp3") in
  log (Syscall "os.path.exists" path)
    (log (Syscall "os.path.realpath" DOWNLOAD_FOLDER)
       (log (Syscall "os.path.realpath" path) w)).

Definition after_access (file_id : string) (w : world) : world :=
  log (Syscall "os.access" (os_path_join DOWNLOAD_FOLDER (file_id +:+ ".mp3")))
    (after_lookup file_id w).

(** The identifier [convert] draws in a world, the worlds it passes through
    and the body it returns. *)
Definition fresh_id (w : world) : string :=
  Uuid.str (Uuid.uuid4 (urandom w (draws w) mod 2 ^ 128)%N).

Definition after_headroom_check (req : ConvertRequest) (w : world) : world :=
  log (Syscall "shutil.disk_usage" DOWNLOAD_FOLDER)
    (drawn (log (Printed ("Received convert request for URL: " +:+ youtube_url req)) w)).

Definition job_of (req : ConvertRequest) (w : world) : task :=
  Task (youtube_url req) (quality req)
       (os_path_join DOWNLOAD_FOLDER (fresh_id w +:+ ".mp3")).

Definition processing_body (file_id : string) : list (string * string) :=
  [ ("download_url", "/download/" +:+ file_id);
    ("status", "processing");
    ("message", "Your file is being processed. Please wait a few moments before downloading.");
    ("estimated_wait_time", "15-30 seconds") ].

End Worlds.

(** ** Concrete inputs *)

Definition app_folder : string := "/srv/suno/backend/app/downloads".

(** A world with the given files and free space; the clock stands at 25 hours
    (in microseconds), nothing has been drawn, scheduled or done. *)
Definition world_of (fs : gmap string node) (free : Z) : world :=
  World fs free 90000000000 (fun k => N.of_nat k) 0 [] [].

Definition plenty : Z := 64 * 1024 * 1024 * 1024.

Definition token_a : string := "0a1b2c3d-0000-4000-8000-000000000001".
Definition path_a : string := os_path_join app_folder (token_a +:+ ".mp3").

(** The path after [-o] in a command line, an extractor that writes a file of
    the given size there, and one that writes it and then fails. *)
Definition destination (command : list string) : string :=
  nth 9 command EmptyString.

Definition extractor_writes (size : Z)
    : list string -> gmap string node -> outcome unit * gmap string node :=
  fun command fs => (Return tt, <[destination command := File 90000000000 size true]> fs).

Definition extractor_writes_then_fails (size : Z)
    : list string -> gmap string node -> outcome unit * gmap string node :=
  fun command fs =>
    (Raise (CalledProcessError "ERROR: Postprocessing failed"),
     <[destination command := File 90000000000 size true]> fs).

(** An extractor that fails after writing part of the output and whose
    captured output holds a byte that is not UTF-8: [subprocess.run] decodes
    the output before it looks at the exit status, and raises
    [UnicodeDecodeError]. *)
Definition extractor_undecodable (size : Z)
    : list string -> gmap string node -> outcome unit * gmap string node :=
  fun command fs =>
    (Raise (ValueError "'utf-8' codec can't decode byte 0xff in position 0: invalid start byte"),
     <[destination command := File 90000000000 size true]> fs).

(** A world in which the file of [token_a] is a symbolic link to a file
    outside the storage folder. *)
Definition escape_world : world :=
  world_of (<[path_a := Symlink "/etc/passwd"]>
            (<["/etc/passwd" := File 0 2048 true]> ∅)) plenty.

(** A token of 36 allowed characters followed by a line feed. *)
Definition token_with_line_feed : string := token_a +:+ String Str.LF EmptyString.



(** ** Vocabulary of the further properties *)

(** The file-system calls of [download]: all of them only read. *)
Definition read_call (e : event) : bool :=
  match e with
  | Syscall f _ =>
      String.eqb f "os.path.realpath" || String.eqb f "os.path.exists"
      || String.eqb f "os.access"
  | _ => false
  end.

(** The characters of the model, in order of their codes. *)
Definition all_ascii : list ascii := map ascii_of_nat (seq 0 256).

(** Every character class of [r] lies within [q]. *)
Fixpoint classes_within (q : ascii -> bool) (r : Re.regex) : bool :=
  match r with
  | Re.Void | Re.Eps => true
  | Re.Class p => List.forallb (fun c => implb (p c) (q c)) all_ascii
  | Re.Cat r1 r2 | Re.Alt r1 r2 => classes_within q r1 && classes_within q r2
  | Re.Star r1 => classes_within q r1
  end.

Definition is_Void (r : Re.regex) : bool :=
  match r with
  | Re.Void => true
  | _ => false
  end.

Definition non_space (c : ascii) : bool := negb (Re.space c).

(** The first characters a URL can have: [h] of [http], [w] of [www.] and [y]
    of [youtube.com] and [youtu.be]. *)
Definition url_head (c : ascii) : bool :=
  Ascii.eqb c "h" || Ascii.eqb c "w" || Ascii.eqb c "y".

(** The file of [token_a], stored and readable, and stored but unreadable. *)
Definition stored_world : world :=
  world_of (<[path_a := File 0 2048 true]> ∅) plenty.

Definition locked_world : world :=
  world_of (<[path_a := File 0 2048 false]> ∅) plenty.

(** A file outside the storage folder, beside an old file in it. *)
Definition shared_world : world :=
  world_of (<["/etc/passwd" := File 0 2048 true]>
            (<[path_a := File 0 4096 true]> ∅)) plenty.

(** An extractor that cannot be started. *)
Definition extractor_missing
    : list string -> gmap string node -> outcome unit * gmap string node :=
  fun _ fs => (Raise (FileNotFoundError "yt-dlp"), fs).

(** An extractor that exits with status zero and writes nothing. *)
Definition extractor_idle
    : list string -> gmap string node -> outcome unit * gmap string node :=
  fun _ fs => (Return tt, fs).

(** * Properties *)

#[local] Arguments String.append : simpl nomatch.

(** ** Library functions on examples *)

Example uuid4_str_example :
  Uuid.str (Uuid.uuid4 0) = "00000000-0000-4000-8000-000000000000".
Proof. vm_compute. reflexivity. Qed.

Example strftime_example :
  Calendar.strftime_Ymd_HMS 1709210096000000 = "20240229_123456".
Proof. vm_compute. reflexivity. Qed.

(** ** Running the handlers *)

Ltac run :=
  unfold bind, ret, raise, try_except,
    os_path_exists, os_path_getmtime, os_path_getsize, os_access_R_OK,
    os_path_realpath, os_listdir, shutil_disk_usage_free, datetime_now,
    print, asyncio_sleep, os_urandom16, add_task;
  cbn [dispatch log with_files drawn scheduled slept
       files free_space now urandom draws background_tasks trace
       fst snd negb Exception is_ValueError is_CalledProcessError].


(** ** Strings *)

Section StringFacts.

Lemma append_empty_r (s : string) : s +:+ EmptyString = s.
Proof. induction s as [|c s IH]; simpl; [reflexivity | now rewrite IH]. Qed.

Lemma append_assoc (a b c : string) : (a +:+ b) +:+ c = a +:+ (b +:+ c).
Proof. induction a as [|x a IH]; simpl; [reflexivity | now rewrite IH]. Qed.

Lemma length_append (a b : string) :
  String.length (a +:+ b) = (String.length a + String.length b)%nat.
Proof. induction a as [|x a IH]; simpl; [reflexivity | now rewrite IH]. Qed.

Lemma strip_prefix_append (a b : string) : Str.strip_prefix a (a +:+ b) = Some b.
Proof.
  induction a as [|x a IH]; simpl; [reflexivity|].
  now rewrite Ascii.eqb_refl.
Qed.

Lemma startswith_append (a b : string) : Str.startswith (a +:+ b) a = true.
Proof. unfold Str.startswith. now rewrite strip_prefix_append. Qed.


Lemma endswith_append (a p : string) : Str.endswith (a +:+ p) p = true.
Proof.
  induction a as [|x a IH]; simpl.
  - destruct p; simpl; [reflexivity|].
    now rewrite Ascii.eqb_refl, String.eqb_refl.
  - rewrite IH. apply orb_true_r.
Qed.

Lemma endswith_String (c : ascii) (s p : string) :
  Str.endswith s p = true -> Str.endswith (String c s) p = true.
Proof.
  intros H. change (Str.endswith (String c s) p)
    with (String.eqb (String c s) p || Str.endswith s p).
  rewrite H. apply orb_true_r.
Qed.

Lemma forallb_append (f : ascii -> bool) (a b : string) :
  Str.forallb f (a +:+ b) = Str.forallb f a && Str.forallb f b.
Proof.
  induction a as [|x a IH]; simpl; [reflexivity|].
  now rewrite IH, andb_assoc.
Qed.

Lemma strip_final_newline_Some (s t : string) :
  Str.strip_final_newline s = Some t -> s = t +:+ String Str.LF EmptyString.
Proof.
  revert t; induction s as [|c s IH]; intros t; simpl; [discriminate|].
  destruct s as [|d s].
  - destruct (Ascii.eqb c Str.LF) eqn:E; [|discriminate].
    apply Ascii.eqb_eq in E; subst c. now intros [= <-].
  - destruct (Str.strip_final_newline (String d s)) as [u|]; [|discriminate].
    intros [= <-]. simpl. now rewrite (IH u eq_refl).
Qed.

Lemma strip_final_newline_append (t : string) :
  Str.strip_final_newline (t +:+ String Str.LF EmptyString) = Some t.
Proof.
  induction t as [|c t IH]; [reflexivity|].
  change (String c t +:+ String Str.LF EmptyString)
    with (String c (t +:+ String Str.LF EmptyString)).
  simpl. rewrite IH. now destruct t.
Qed.

End StringFacts.

(** ** Paths *)

Section PathFacts.

(** A joined path keeps the folder in front unless the name is absolute. *)
Lemma os_path_join_relative (a : string) (c : ascii) (s : string) :
  c <> "/"%char ->
  exists sep, os_path_join a (String c s) = a +:+ sep +:+ String c s.
Proof.
  intros Hc. unfold os_path_join, Str.startswith. cbn [Str.strip_prefix].
  destruct (Ascii.eqb_spec "/" c) as [e|_]; [now destruct Hc|].
  destruct (String.eqb a EmptyString || Str.endswith a "/").
  - now exists EmptyString.
  - now exists "/".
Qed.

Lemma os_path_join_endswith (a b ext : string) :
  Str.endswith (os_path_join a (b +:+ ext)) ext = true.
Proof.
  unfold os_path_join.
  destruct (Str.startswith (b +:+ ext) "/"); [apply endswith_append|].
  destruct (String.eqb a EmptyString || Str.endswith a "/").
  - rewrite <- append_assoc. apply endswith_append.
  - rewrite <- !append_assoc. apply endswith_append.
Qed.

End PathFacts.

(** ** Regular expressions *)

Section RegexFacts.

Lemma fullmatch_Void (s : string) : Re.fullmatch Re.Void s = false.
Proof. induction s; simpl; auto. Qed.

Lemma alt_Void_r (r : Re.regex) : Re.alt r Re.Void = r.
Proof. now destruct r. Qed.

(** [r{n}] over a character class matches exactly the strings of [n]
    characters of the class. *)
Lemma fullmatch_Times_Class (p : ascii -> bool) (n : nat) (s : string) :
  Re.fullmatch (Re.Times n (Re.Class p)) s
  = Nat.eqb (String.length s) n && Str.forallb p s.
Proof.
  revert s; induction n as [|n IH]; intros [|c s]; simpl; try reflexivity.
  - apply fullmatch_Void.
  - rewrite alt_Void_r. destruct (p c); simpl.
    + apply IH.
    + rewrite fullmatch_Void. now rewrite andb_false_r.
Qed.

End RegexFacts.

(** ** Tokens *)

Section TokenFacts.

(** What the pattern of [download] accepts: a token of that shape, with or
    without a line feed after it. *)
Lemma file_id_check (s : string) :
  Re.match_anchored file_id_regex s
  = token_shape s ||
    match Str.strip_final_newline s with
    | Some t => token_shape t
    | None => false
    end.
Proof.
  unfold Re.match_anchored, file_id_regex, token_shape.
  rewrite fullmatch_Times_Class.
  destruct (Str.strip_final_newline s); [|reflexivity].
  now rewrite fullmatch_Times_Class.
Qed.

Lemma token_shape_head (s : string) :
  token_shape s = true ->
  exists c s', s = String c s' /\ c <> "/"%char.
Proof.
  unfold token_shape. destruct s as [|c s']; [discriminate|].
  intros H. apply andb_true_iff in H as [_ H].
  cbn [Str.forallb] in H. apply andb_true_iff in H as [Hc _].
  exists c, s'. split; [reflexivity|].
  intros ->. discriminate Hc.
Qed.

Lemma file_id_head (s : string) :
  Re.match_anchored file_id_regex s = true ->
  exists c s', s = String c s' /\ c <> "/"%char.
Proof.
  rewrite file_id_check. intros H. apply orb_true_iff in H as [H|H].
  - now apply token_shape_head.
  - destruct (Str.strip_final_newline s) as [t|] eqn:E; [|discriminate].
    apply strip_final_newline_Some in E. subst s.
    destruct (token_shape_head t H) as (c & t' & -> & Hc).
    now exists c, (t' +:+ String Str.LF EmptyString).
Qed.

Lemma token_shape_accepted (s : string) :
  token_shape s = true -> Re.match_anchored file_id_regex s = true.
Proof. rewrite file_id_check. now intros ->. Qed.

Lemma forallb_weaken (p q : ascii -> bool) (s : string) :
  (forall c, p c = true -> q c = true) ->
  Str.forallb p s = true -> Str.forallb q s = true.
Proof.
  intros Hpq. induction s as [|c s IH]; [reflexivity|].
  cbn [Str.forallb]. intros H. apply andb_true_iff in H as [Hc Hs].
  now rewrite (Hpq c Hc), IH.
Qed.

Lemma token_shape_no_slash (s : string) :
  token_shape s = true ->
  Str.forallb (fun c => negb (Ascii.eqb c "/")) s = true.
Proof.
  unfold token_shape. intros H. apply andb_true_iff in H as [_ H].
  revert H. apply forallb_weaken. intros c Hc.
  destruct (Ascii.eqb_spec c "/") as [->|_]; [discriminate Hc | reflexivity].
Qed.

(** Every token the pattern of [download] accepts is one path segment, so the
    request that carries it reaches the handler. *)
Lemma file_id_routed (s : string) :
  Re.match_anchored file_id_regex s = true -> routed s = true.
Proof.
  intros Hm. unfold routed.
  destruct (file_id_head s Hm) as (c & s' & E & _).
  apply andb_true_iff; split; [now subst s|].
  clear c s' E. rewrite file_id_check in Hm. apply orb_true_iff in Hm as [H|H].
  - now apply token_shape_no_slash.
  - destruct (Str.strip_final_newline s) as [t|] eqn:E; [|discriminate].
    apply strip_final_newline_Some in E. subst s.
    now rewrite forallb_append, token_shape_no_slash.
Qed.

(** The extension test of [download] on a name that was built by appending
    the extension. *)
Lemma extension_check (file_id : string) :
  existsb (Str.endswith (file_id +:+ ".mp3")) ALLOWED_EXTENSIONS = true.
Proof.
  unfold ALLOWED_EXTENSIONS. cbn [existsb].
  now rewrite endswith_append.
Qed.

End TokenFacts.

(** ** File system *)

Section FileSystemFacts.

Variable DOWNLOAD_FOLDER : string.

Lemma exists_at_absent (fs : gmap string node) (p : string) :
  fs !! p = None -> exists_at fs p = false.
Proof. intros H. unfold exists_at, stat. now rewrite H. Qed.

Lemma exists_at_present (fs : gmap string node) (p : string) :
  exists_at fs p = true -> is_Some (fs !! p).
Proof.
  unfold exists_at, stat. destruct (fs !! p); [eauto | discriminate].
Qed.

Lemma realpath_folder (fs : gmap string node) :
  realpath DOWNLOAD_FOLDER fs DOWNLOAD_FOLDER = canonical_folder DOWNLOAD_FOLDER fs.
Proof.
  unfold realpath, canonical_folder.
  assert (Str.strip_prefix DOWNLOAD_FOLDER DOWNLOAD_FOLDER = Some EmptyString) as ->.
  { rewrite <- (append_empty_r DOWNLOAD_FOLDER) at 2. apply strip_prefix_append. }
  rewrite append_empty_r.
  destruct (fs !! DOWNLOAD_FOLDER) as [[]|]; reflexivity.
Qed.

(** A path under the folder that is not a symbolic link resolves to a path
    under the canonical folder. *)
Lemma realpath_inside (fs : gmap string node) (rest : string) :
  (forall t, fs !! (DOWNLOAD_FOLDER +:+ rest) <> Some (Symlink t)) ->
  Str.startswith (realpath DOWNLOAD_FOLDER fs (DOWNLOAD_FOLDER +:+ rest))
                 (realpath DOWNLOAD_FOLDER fs DOWNLOAD_FOLDER) = true.
Proof.
  intros Hlink. rewrite realpath_folder. unfold realpath.
  rewrite strip_prefix_append.
  destruct (fs !! (DOWNLOAD_FOLDER +:+ rest)) as [[|t]|];
    try apply startswith_append.
  now destruct (Hlink t).
Qed.

End FileSystemFacts.

(** ** Download endpoint *)

Section DownloadFacts.

Variable DOWNLOAD_FOLDER : string.

(** [download] as one case distinction, in the order of its tests. *)
Lemma download_unfold (file_id : string) (w : world) :
  let path := os_path_join DOWNLOAD_FOLDER (file_id +:+ ".mp3") in
  download DOWNLOAD_FOLDER file_id w =
  if negb (Re.match_anchored file_id_regex file_id)
  then (Raise (HTTPException 400 "Invalid file ID format"), w)
  else if negb (Str.startswith (realpath DOWNLOAD_FOLDER (files w) path)
                               (realpath DOWNLOAD_FOLDER (files w) DOWNLOAD_FOLDER))
  then (Raise (HTTPException 400 "Invalid file path"), after_resolve DOWNLOAD_FOLDER file_id w)
  else if negb (exists_at (files w) path)
  then (Raise (HTTPException 404 "File not found. It might still be processing or has expired."),
        after_lookup DOWNLOAD_FOLDER file_id w)
  else match stat (files w) path with
       | Some (_, _, true) =>
           (Return (FileResponse path "audio/mpeg"
                      ("youtube_audio_" +:+ Calendar.strftime_Ymd_HMS (now w) +:+ ".mp3")),
            after_access DOWNLOAD_FOLDER file_id w)
       | _ =>
           (Raise (HTTPException 500 "Server cannot access the file. Please try again later."),
            after_access DOWNLOAD_FOLDER file_id w)
       end.
Proof.
  intros path. unfold download.
  destruct (Re.match_anchored file_id_regex file_id); [|reflexivity].
  rewrite extension_check. fold path.
  unfold after_access, after_lookup, after_resolve. fold path.
  run.
  destruct (Str.startswith _ _); run; [|reflexivity].
  destruct (exists_at (files w) path); run; [|reflexivity].
  destruct (stat (files w) path) as [[[m sz] [|]]|]; reflexivity.
Qed.

Lemma download_rejected (file_id : string) (w : world) :
  Re.match_anchored file_id_regex file_id = false ->
  download DOWNLOAD_FOLDER file_id w
  = (Raise (HTTPException 400 "Invalid file ID format"), w).
Proof. intros H. unfold download. now rewrite H. Qed.

Lemma download_absent (file_id : string) (w : world) :
  Re.match_anchored file_id_regex file_id = true ->
  files w !! os_path_join DOWNLOAD_FOLDER (file_id +:+ ".mp3") = None ->
  download DOWNLOAD_FOLDER file_id w
  = (Raise (HTTPException 404 "File not found. It might still be processing or has expired."),
     after_lookup DOWNLOAD_FOLDER file_id w).
Proof.
  intros Hm Hnone. rewrite download_unfold, Hm. cbn [negb].
  rewrite (exists_at_absent _ _ Hnone). cbn [negb].
  destruct (file_id_head _ Hm) as (c & s' & -> & Hc).
  change (String c s' +:+ ".mp3") with (String c (s' +:+ ".mp3")) in *.
  destruct (os_path_join_relative DOWNLOAD_FOLDER c (s' +:+ ".mp3") Hc)
    as (sep & Hj).
  rewrite Hj in *.
  now rewrite realpath_inside by (intros t; rewrite Hnone; discriminate).
Qed.

(** No outcome of [download] carries the status 403 or the detail of the
    extension test. *)
Lemma download_outcomes (file_id : string) (w : world) :
  match fst (download DOWNLOAD_FOLDER file_id w) with
  | Return (FileResponse p _ _) =>
      p = os_path_join DOWNLOAD_FOLDER (file_id +:+ ".mp3")
  | Return (JSONResponse _ _) => False
  | Return (PlainTextResponse _ _) => False
  | Raise (HTTPException s d) =>
      (s = 400 /\ d = "Invalid file ID format")
      \/ (s = 400 /\ d = "Invalid file path")
      \/ (s = 404 /\ d = "File not found. It might still be processing or has expired.")
      \/ (s = 500 /\ d = "Server cannot access the file. Please try again later.")
  | Raise _ => False
  end.
Proof.
  rewrite download_unfold.
  destruct (Re.match_anchored file_id_regex file_id); cbn [negb fst]; [|tauto].
  destruct (Str.startswith _ _); cbn [negb fst]; [|tauto].
  destruct (exists_at _ _); cbn [negb fst]; [|tauto].
  destruct (stat _ _) as [[[m sz] [|]]|]; cbn [fst]; tauto.
Qed.

(** A request whose token the pattern accepts is answered by the handler. *)
Lemma get_download_accepted (file_id : string) (w : world) :
  Re.match_anchored file_id_regex file_id = true ->
  get_download DOWNLOAD_FOLDER file_id w
  = respond (fun r => r) (download DOWNLOAD_FOLDER file_id) w.
Proof. intros Hm. unfold get_download. now rewrite file_id_routed. Qed.

(** Every request is answered by the handler or, without any step of the
    program, by the router. *)
Lemma get_download_cases (file_id : string) (w : world) :
  get_download DOWNLOAD_FOLDER file_id w
  = respond (fun r => r) (download DOWNLOAD_FOLDER file_id) w
  \/ get_download DOWNLOAD_FOLDER file_id w
     = (JSONResponse 404 [("detail", "Not Found")], w).
Proof. unfold get_download. destruct (routed file_id); [now left | now right]. Qed.

End DownloadFacts.

(** ** Identifiers *)

Section UuidFacts.

Lemma hex_digit_class (n : nat) :
  (n < 16)%nat -> Re.hex_or_hyphen (Uuid.hex_digit (N.of_nat n)) = true.
Proof.
  intros H. do 16 (destruct n as [|n]; [reflexivity|]). lia.
Qed.

Lemma nibble_class (i : N) (k : nat) : Re.hex_or_hyphen (Uuid.nibble i k) = true.
Proof.
  unfold Uuid.nibble.
  set (d := N.land _ 15).
  assert (d < 16)%N as Hd.
  { subst d. change 15%N with (N.ones 4). rewrite N.land_ones.
    apply N.mod_lt. discriminate. }
  rewrite <- (N2Nat.id d). apply hex_digit_class. lia.
Qed.

Lemma hex32_length (i : N) : length (Uuid.hex32 i) = 32%nat.
Proof. unfold Uuid.hex32. now rewrite length_map. Qed.

Lemma hex32_class (i : N) :
  Forall (fun c => Re.hex_or_hyphen c = true) (Uuid.hex32 i).
Proof.
  unfold Uuid.hex32. apply Forall_map, Forall_forall.
  intros k _. apply nibble_class.
Qed.

Lemma length_string_of_list (l : list ascii) :
  String.length (string_of_list_ascii l) = length l.
Proof. induction l as [|c l IH]; simpl; [reflexivity | now rewrite IH]. Qed.

Lemma forallb_string_of_list (p : ascii -> bool) (l : list ascii) :
  Forall (fun c => p c = true) l -> Str.forallb p (string_of_list_ascii l) = true.
Proof.
  induction 1 as [|c l Hc _ IH]; simpl; [reflexivity|].
  now rewrite Hc, IH.
Qed.

Lemma group_length (h : list ascii) (start len : nat) :
  (start + len <= length h)%nat -> String.length (Uuid.group h start len) = len.
Proof.
  intros H. unfold Uuid.group.
  rewrite length_string_of_list, length_take, length_drop. lia.
Qed.

Lemma group_class (p : ascii -> bool) (h : list ascii) (start len : nat) :
  Forall (fun c => p c = true) h -> Str.forallb p (Uuid.group h start len) = true.
Proof.
  intros H. apply forallb_string_of_list. now apply Forall_take, Forall_drop.
Qed.

(** Every identifier the conversion endpoint prints has the shape of a token,
    so the download endpoint accepts it. *)
Lemma uuid_str_shape (i : N) : token_shape (Uuid.str i) = true.
Proof.
  unfold token_shape, Uuid.str, Uuid.format.
  pose proof (hex32_length i) as Hlen.
  pose proof (hex32_class i) as Hcls.
  apply andb_true_iff; split.
  - rewrite !length_append, !group_length by lia. reflexivity.
  - rewrite !forallb_append, !group_class by assumption. reflexivity.
Qed.

End UuidFacts.

(** ** Conversion endpoint *)

Section ConvertFacts.

Variable DOWNLOAD_FOLDER : string.

(** [convert] as one case distinction. *)
Lemma convert_unfold (req : ConvertRequest) (w : world) :
  convert DOWNLOAD_FOLDER req w =
  if free_space w <? MAX_FILE_SIZE_MB * 1024 * 1024 * 2
  then (Raise (HTTPException 507 "Insufficient storage space. Please try again later."),
        after_headroom_check DOWNLOAD_FOLDER req w)
  else (Return (processing_body (fresh_id w)),
        scheduled (job_of DOWNLOAD_FOLDER req w) (after_headroom_check DOWNLOAD_FOLDER req w)).
Proof.
  unfold convert, after_headroom_check, job_of, processing_body, fresh_id. run.
  destruct (free_space w <? _); reflexivity.
Qed.

Lemma post_convert_valid (b : convert_body) (req : ConvertRequest) (w : world) :
  parse_ConvertRequest b = inr req ->
  post_convert DOWNLOAD_FOLDER b w =
  if free_space w <? MAX_FILE_SIZE_MB * 1024 * 1024 * 2
  then (JSONResponse 507 [("detail", "Insufficient storage space. Please try again later.")],
        after_headroom_check DOWNLOAD_FOLDER req w)
  else (JSONResponse 200 (processing_body (fresh_id w)),
        scheduled (job_of DOWNLOAD_FOLDER req w) (after_headroom_check DOWNLOAD_FOLDER req w)).
Proof.
  intros Hp. unfold post_convert, respond. rewrite Hp, convert_unfold.
  destruct (free_space w <? _); reflexivity.
Qed.

Lemma post_convert_invalid (b : convert_body) (errors : list (string * string))
    (w : world) :
  parse_ConvertRequest b = inl errors ->
  post_convert DOWNLOAD_FOLDER b w
  = (JSONResponse HTTP_422_UNPROCESSABLE_ENTITY errors, w).
Proof. intros Hp. unfold post_convert. now rewrite Hp. Qed.

Lemma parse_accepts (b : convert_body) (url : string) :
  body_youtube_url b = Some url ->
  Re.match_anchored youtube_regex url = true ->
  known_quality (quality_of b) = true ->
  parse_ConvertRequest b = inr {| youtube_url := url; quality := quality_of b |}.
Proof.
  intros Hu Hm Hq. unfold parse_ConvertRequest, quality_of in *.
  rewrite Hu. unfold validate_youtube_url. rewrite Hm. cbn [negb].
  destruct (body_quality b) as [q|]; [|reflexivity].
  unfold validate_quality. unfold known_quality in Hq. now rewrite Hq.
Qed.

Lemma parse_rejects (b : convert_body) :
  (exists url, body_youtube_url b = Some url
               /\ Re.match_anchored youtube_regex url = false)
  \/ (exists q, body_quality b = Some q /\ known_quality q = false) ->
  exists e errors, parse_ConvertRequest b = inl (e :: errors).
Proof.
  unfold parse_ConvertRequest.
  intros [(url & Hu & Hm)|(q & Hq & Hk)].
  - rewrite Hu. unfold validate_youtube_url. rewrite Hm. cbn [negb field_errors].
    destruct (match body_quality b with Some v => validate_quality v | None => _ end);
      eexists _, _; reflexivity.
  - rewrite Hq. unfold validate_quality. unfold known_quality in Hk.
    rewrite Hk. cbn [negb].
    destruct (match body_youtube_url b with Some v => _ | None => _ end);
      cbn [field_errors app]; eexists _, _; reflexivity.
Qed.

End ConvertFacts.

(** ** Background extraction job *)

Section ExtractionFacts.

Variable yt_dlp : list string -> gmap string node -> outcome unit * gmap string node.

(** The size test of [download_audio], in bytes. *)
Lemma file_size_over (size : Z) :
  negb (Qle_bool (file_size_mb size) (inject_Z MAX_FILE_SIZE_MB))
  = (MAX_FILE_SIZE_MB * 1024 * 1024 <? size).
Proof.
  unfold file_size_mb, Qle_bool, MAX_FILE_SIZE_MB.
  cbn [Qnum Qden Qmult Qdiv inject_Z].
  set (x := Qinv _). vm_compute in x. subst x. cbn [Qnum Qden].
  change (Z.pos (1 * 1048576)) with 1048576.
  destruct (Z.leb_spec (size * 1 * 1) (100 * 1048576)),
           (Z.ltb_spec (100 * 1024 * 1024) size); try reflexivity; lia.
Qed.

Lemma exists_at_delete (fs : gmap string node) (p : string) :
  exists_at (delete p fs) p = false.
Proof. apply exists_at_absent, lookup_delete_eq. Qed.

Lemma exists_at_lookup (fs : gmap string node) (p : string) :
  exists_at fs p = true -> exists n, fs !! p = Some n.
Proof.
  unfold exists_at, stat. destruct (fs !! p) as [n|]; [eauto | discriminate].
Qed.

(** The job after the extractor has exited with status zero and left more than
    the maximum at the destination. *)
Lemma download_audio_oversize (url q filename : string) (opts : list string)
    (w : world) (fs1 : gmap string node) (m size : Z) (rd : bool) :
  dict_get quality_options q = Some opts ->
  yt_dlp (command_line opts filename url) (files w) = (Return tt, fs1) ->
  stat fs1 filename = Some (m, size, rd) ->
  MAX_FILE_SIZE_MB * 1024 * 1024 < size ->
  fst (download_audio yt_dlp url q filename w)
  = Raise (ValueError "File size exceeds limit of 100MB")
  /\ files (snd (download_audio yt_dlp url q filename w)) = delete filename fs1.
Proof.
  intros Hq Hrun Hstat Hsize.
  assert (exists_at fs1 filename = true) as Hex
    by (unfold exists_at; now rewrite Hstat).
  destruct (exists_at_lookup _ _ Hex) as [n Hn].
  unfold download_audio, getitem, subprocess_run. rewrite Hq. run.
  rewrite Hrun. run. rewrite Hex. run. rewrite Hstat. run.
  rewrite file_size_over.
  destruct (Z.ltb_spec (MAX_FILE_SIZE_MB * 1024 * 1024) size) as [_|]; [|lia].
  unfold os_remove. run. rewrite Hn. run. split; reflexivity.
Qed.

(** The job after the extractor has exited with another status. *)
Lemma download_audio_tool_failure (url q filename : string) (opts : list string)
    (w : world) (fs1 : gmap string node) (err : string) :
  dict_get quality_options q = Some opts ->
  yt_dlp (command_line opts filename url) (files w)
  = (Raise (CalledProcessError err), fs1) ->
  fst (download_audio yt_dlp url q filename w)
  = Raise (ValueError ("YouTube download failed: " +:+ err))
  /\ files (snd (download_audio yt_dlp url q filename w))
     = if exists_at fs1 filename then delete filename fs1 else fs1.
Proof.
  intros Hq Hrun.
  unfold download_audio, getitem, subprocess_run. rewrite Hq. run.
  rewrite Hrun. run.
  destruct (exists_at fs1 filename) eqn:Hex; run.
  - destruct (exists_at_lookup _ _ Hex) as [n Hn].
    unfold os_remove. run. rewrite Hn. run. split; reflexivity.
  - split; reflexivity.
Qed.

End ExtractionFacts.

(** ** Retention loop *)

Section RetentionFacts.

Variable DOWNLOAD_FOLDER : string.


Lemma stat_present (fs : gmap string node) (p : string) (x : Z * Z * bool) :
  stat fs p = Some x -> exists n, fs !! p = Some n.
Proof. unfold stat. destruct (fs !! p) as [n|]; [eauto | discriminate]. Qed.
















End RetentionFacts.

(** * The claims *)

(** ** Download endpoint *)

(** The download endpoint never answers 403: the only [HTTPException] with that
    status is raised inside a [try] block whose [except Exception] clause
    replaces it. *)
Lemma download_never_403 (D file_id : string) (w : world) :
  status (fst (get_download D file_id w)) <> 403.
Proof.
  destruct (get_download_cases D file_id w) as [-> | ->]; [|discriminate].
  unfold respond.
  pose proof (download_outcomes D file_id w) as H.
  destruct (download D file_id w) as [[[s c|s c|p mt fn]|[s d| | | |]] w'];
    cbn [fst status] in *; try tauto; try discriminate.
  intros ->. destruct H as [[H _]|[[H _]|[[H _]|[H _]]]]; discriminate.
Qed.

(** C1 (the code at the failing input).  The token passes the lexical check
    and its path resolves outside the canonical storage folder, so the handler
    raises the 403 exception; the surrounding [except Exception] clause catches
    it and the response is 400 "Invalid file path", not 403. *)
Theorem download_path_escape_answers_400 :
  Re.match_anchored file_id_regex token_a = true
  /\ Str.startswith (realpath app_folder (files escape_world) path_a)
                    (realpath app_folder (files escape_world) app_folder) = false
  /\ fst (get_download app_folder token_a escape_world)
     = JSONResponse 400 [("detail", "Invalid file path")].
Proof. vm_compute. repeat split; reflexivity. Qed.

(** The containment test is a test on strings: a link into a sibling folder
    whose name extends the storage folder's name passes it, and the file is
    served. *)
Example download_serves_sibling_folder :
  let target := app_folder +:+ "-private/master.mp3" in
  let w := world_of (<[path_a := Symlink target]>
                     (<[target := File 0 2048 true]> ∅)) plenty in
  fst (get_download app_folder token_a w)
  = FileResponse path_a "audio/mpeg" "youtube_audio_19700102_010000.mp3".
Proof. vm_compute. reflexivity. Qed.


(** C4 (the code at the failing input).  The token has 37 characters, the last
    of them a line feed, so it does not have the shape of a token; [$] matches
    before that line feed, the pattern accepts it, the handler goes on to
    resolve the path and test the file, and the answer is 404 after three file
    system calls instead of 400 before any. *)
Theorem download_accepts_trailing_line_feed :
  String.length token_with_line_feed = 37%nat
  /\ token_shape token_with_line_feed = false
  /\ Re.match_anchored file_id_regex token_with_line_feed = true
  /\ fst (get_download app_folder token_with_line_feed (world_of ∅ plenty))
     = JSONResponse 404
         [("detail", "File not found. It might still be processing or has expired.")]
  /\ length (trace (snd (get_download app_folder token_with_line_feed
                           (world_of ∅ plenty)))) = 3%nat.
Proof. vm_compute. repeat split; reflexivity. Qed.

(** C5.  For every token the lexical check accepts whose path
    [<folder>/<token>.mp3] holds nothing, [GET /download/{token}] answers 404. *)
Theorem download_missing_file_404 (D file_id : string) (w : world) :
  Re.match_anchored file_id_regex file_id = true ->
  files w !! os_path_join D (file_id +:+ ".mp3") = None ->
  fst (get_download D file_id w)
  = JSONResponse 404
      [("detail", "File not found. It might still be processing or has expired.")].
Proof.
  intros Hm Hnone. rewrite get_download_accepted by exact Hm. unfold respond.
  now rewrite (download_absent D file_id w Hm Hnone).
Qed.

Lemma download_missing_file_404_witness :
  fst (get_download app_folder token_a (world_of ∅ plenty))
  = JSONResponse 404
      [("detail", "File not found. It might still be processing or has expired.")].
Proof.
  apply download_missing_file_404; vm_compute; reflexivity.
Defined.

(** C10.  For every token the extension test of [download] holds, because the
    file name is the token with [.mp3] appended; no request is answered with
    the 400 "Invalid file type requested" of that branch. *)
Theorem extension_branch_unreachable (D file_id : string) (w : world) :
  existsb (Str.endswith (file_id +:+ ".mp3")) ALLOWED_EXTENSIONS = true
  /\ fst (download D file_id w)
     <> Raise (HTTPException 400 "Invalid file type requested")
  /\ fst (get_download D file_id w)
     <> JSONResponse 400 [("detail", "Invalid file type requested")].
Proof.
  split; [apply extension_check|].
  pose proof (download_outcomes D file_id w) as H.
  assert (fst (respond (fun r => r) (download D file_id) w)
          <> JSONResponse 400 [("detail", "Invalid file type requested")]) as Hr.
  { unfold respond.
    destruct (download D file_id w) as [[[s c|s c|p mt fn]|[s d| | | |]] w'];
      cbn [fst] in *; try tauto; try discriminate.
    intros [= -> ->];
      destruct H as [[_ H]|[[_ H]|[[_ H]|[_ H]]]]; discriminate. }
  split.
  - intros E. rewrite E in H. cbn in H.
    destruct H as [[_ H]|[[_ H]|[[_ H]|[_ H]]]]; discriminate.
  - destruct (get_download_cases D file_id w) as [-> | ->];
      [exact Hr | discriminate].
Qed.

(** ** Conversion endpoint *)

(** C2 (counterexample).  The malformed URLs [not-a-url] and
    [https://example.com/watch?v=x] and the quality [ultra] are all answered
    with status 422, so the status is not 400. *)
Lemma malformed_request_is_not_answered_400 :
  let w := world_of ∅ plenty in
  status (fst (post_convert app_folder (body_of "not-a-url" None) w)) = 422
  /\ status (fst (post_convert app_folder
                    (body_of "https://example.com/watch?v=x" (Some "high")) w)) = 422
  /\ status (fst (post_convert app_folder
                    (body_of "https://youtu.be/dQw4w9WgXcQ" (Some "ultra")) w)) = 422
  /\ status (fst (post_convert app_folder (body_of "not-a-url" None) w)) <> 400.
Proof. vm_compute. repeat split; try reflexivity. discriminate. Qed.

(** C2 (amended).  For every [POST /convert] request whose [youtube_url] does
    not match the pattern, or whose [quality] is given and is not one of high,
    medium and low, the request model is not built: the response has status 422
    and lists at least one field error, and the world is unchanged (the handler
    body is not entered and no job is scheduled). *)
Theorem invalid_request_answers_422 (D : string) (b : convert_body) (w : world) :
  (exists url, body_youtube_url b = Some url
               /\ Re.match_anchored youtube_regex url = false)
  \/ (exists q, body_quality b = Some q /\ known_quality q = false) ->
  exists e errors,
    post_convert D b w = (JSONResponse 422 (e :: errors), w).
Proof.
  intros H. destruct (parse_rejects b H) as (e & errors & Hp).
  exists e, errors. now rewrite (post_convert_invalid D b _ w Hp).
Qed.

Lemma invalid_request_answers_422_witness :
  exists e errors,
    post_convert app_folder (body_of "https://youtu.be/dQw4w9WgXcQ" (Some "ultra"))
                 (world_of ∅ plenty)
    = (JSONResponse 422 (e :: errors), world_of ∅ plenty).
Proof.
  apply invalid_request_answers_422.
  right. exists "ultra". split; vm_compute; reflexivity.
Defined.

(** C3 (counterexample).  With exactly twice the maximum file size free, the
    free space does not strictly exceed that amount, yet a valid request is
    answered 200 and its job is scheduled; and with no free space at all a
    request with a malformed URL is answered 422, not 507. *)
Lemma storage_guard_counterexample :
  let limit := 2 * (MAX_FILE_SIZE_MB * 1024 * 1024) in
  let valid := body_of "https://youtu.be/dQw4w9WgXcQ" (Some "high") in
  let r := post_convert app_folder valid (world_of ∅ limit) in
  ~ (limit < free_space (world_of ∅ limit))
  /\ status (fst r) = 200
  /\ length (background_tasks (snd r)) = 1%nat
  /\ status (fst (post_convert app_folder (body_of "not-a-url" None) (world_of ∅ 0)))
     = 422.
Proof. vm_compute. repeat split; try reflexivity. discriminate. Qed.

(** C3 (amended).  For every [POST /convert] request that builds the request
    model: if the free space of the storage folder is below twice the maximum
    file size (2 x 100 MB = 209715200 bytes) the response has status 507, no job
    is scheduled and no file changes; if it is at least that amount (equality
    included) the request is accepted with status 200. *)
Theorem storage_guard (D : string) (b : convert_body) (req : ConvertRequest)
    (w : world) :
  parse_ConvertRequest b = inr req ->
  (free_space w < 2 * (MAX_FILE_SIZE_MB * 1024 * 1024) ->
     fst (post_convert D b w)
     = JSONResponse 507 [("detail", "Insufficient storage space. Please try again later.")]
     /\ background_tasks (snd (post_convert D b w)) = background_tasks w
     /\ files (snd (post_convert D b w)) = files w)
  /\ (2 * (MAX_FILE_SIZE_MB * 1024 * 1024) <= free_space w ->
     status (fst (post_convert D b w)) = 200).
Proof.
  intros Hp. rewrite (post_convert_valid D b req w Hp).
  destruct (Z.ltb_spec (free_space w) (MAX_FILE_SIZE_MB * 1024 * 1024 * 2));
    split; intros; try lia; repeat split; reflexivity.
Qed.

Lemma storage_guard_witness :
  let valid := body_of "https://youtu.be/dQw4w9WgXcQ" (Some "high") in
  status (fst (post_convert app_folder valid (world_of ∅ 209715199))) = 507
  /\ background_tasks (snd (post_convert app_folder valid (world_of ∅ 209715199))) = []
  /\ status (fst (post_convert app_folder valid (world_of ∅ 209715200))) = 200.
Proof.
  intros valid.
  destruct (storage_guard app_folder valid
              {| youtube_url := "https://youtu.be/dQw4w9WgXcQ"; quality := "high" |}
              (world_of ∅ 209715199)) as [Hlow _]; [vm_compute; reflexivity|].
  destruct (storage_guard app_folder valid
              {| youtube_url := "https://youtu.be/dQw4w9WgXcQ"; quality := "high" |}
              (world_of ∅ 209715200)) as [_ Hhigh]; [vm_compute; reflexivity|].
  destruct Hlow as (Hs & Ht & _); [vm_compute; reflexivity|].
  split; [now rewrite Hs|]. split; [exact Ht|].
  apply Hhigh. vm_compute. discriminate.
Defined.

(** C6.  For every [POST /convert] request whose URL matches the pattern and
    whose quality is high, medium or low (or absent, which means high), when the
    free space is at least twice the maximum file size: the response has status
    200 and the body holds [download_url = /download/<token>] with a token of 36
    hexadecimal-or-hyphen characters, [status = processing], the message and
    [estimated_wait_time]; the job for [<folder>/<token>.mp3] is appended to
    the background tasks; and the handler has returned without running the
    extractor: no file has changed and the only events are the log line and the
    free-space query. *)
Theorem convert_accepts (D : string) (b : convert_body) (url : string) (w : world) :
  body_youtube_url b = Some url ->
  Re.match_anchored youtube_regex url = true ->
  known_quality (quality_of b) = true ->
  MAX_FILE_SIZE_MB * 1024 * 1024 * 2 <= free_space w ->
  exists token,
    token_shape token = true
    /\ fst (post_convert D b w)
       = JSONResponse 200
           [ ("download_url", "/download/" +:+ token);
             ("status", "processing");
             ("message", "Your file is being processed. Please wait a few moments before downloading.");
             ("estimated_wait_time", "15-30 seconds") ]
    /\ background_tasks (snd (post_convert D b w))
       = background_tasks w
         ++ [Task url (quality_of b) (os_path_join D (token +:+ ".mp3"))]
    /\ files (snd (post_convert D b w)) = files w
    /\ trace (snd (post_convert D b w))
       = Syscall "shutil.disk_usage" D
         :: Printed ("Received convert request for URL: " +:+ url) :: trace w.
Proof.
  intros Hu Hm Hq Hfree.
  rewrite (post_convert_valid D b _ w (parse_accepts b url Hu Hm Hq)).
  destruct (Z.ltb_spec (free_space w) (MAX_FILE_SIZE_MB * 1024 * 1024 * 2)); [lia|].
  exists (fresh_id w). split; [apply uuid_str_shape|].
  repeat split; reflexivity.
Qed.

Lemma convert_accepts_witness :
  exists token,
    token_shape token = true
    /\ fst (post_convert app_folder (body_of "https://youtu.be/dQw4w9WgXcQ" None)
              (world_of ∅ plenty))
       = JSONResponse 200
           [ ("download_url", "/download/" +:+ token);
             ("status", "processing");
             ("message", "Your file is being processed. Please wait a few moments before downloading.");
             ("estimated_wait_time", "15-30 seconds") ].
Proof.
  destruct (convert_accepts app_folder (body_of "https://youtu.be/dQw4w9WgXcQ" None)
              "https://youtu.be/dQw4w9WgXcQ" (world_of ∅ plenty))
    as (token & Hshape & Hresp & _);
    [reflexivity | vm_compute; reflexivity | vm_compute; reflexivity
    | vm_compute; discriminate |].
  exists token. split; [exact Hshape | exact Hresp].
Defined.

(** C9.  Every path the endpoints hand on ends in [.mp3]: the task that
    [POST /convert] schedules has the destination [<folder>/<token>.mp3], and a
    file that [GET /download/{token}] serves is read from
    [<folder>/<token>.mp3]. *)
Theorem stored_paths_end_in_mp3 (D : string) :
  (forall b w t,
      In t (new_tasks w (snd (post_convert D b w))) ->
      Str.endswith (task_filename t) ".mp3" = true
      /\ exists token, task_filename t = os_path_join D (token +:+ ".mp3"))
  /\ (forall file_id w p media name,
      fst (get_download D file_id w) = FileResponse p media name ->
      p = os_path_join D (file_id +:+ ".mp3")
      /\ Str.endswith p ".mp3" = true).
Proof.
  split.
  - intros b w t. unfold new_tasks.
    destruct (parse_ConvertRequest b) as [errors|req] eqn:Hp.
    + rewrite (post_convert_invalid D b errors w Hp). cbn [snd].
      rewrite drop_all. intros [].
    + rewrite (post_convert_valid D b req w Hp).
      destruct (_ <? _); cbn [snd background_tasks scheduled after_headroom_check log drawn].
      * rewrite drop_all. intros [].
      * rewrite drop_app_length. intros [<-|[]]. cbn [task_filename job_of].
        split; [apply os_path_join_endswith | now exists (fresh_id w)].
  - intros file_id w p media name.
    destruct (get_download_cases D file_id w) as [-> | ->]; [|discriminate].
    unfold respond.
    pose proof (download_outcomes D file_id w) as H.
    destruct (download D file_id w) as [[[s c|s c|p' mt fn]|[s d| | | |]] w'];
      cbn [fst] in *; try discriminate; try tauto.
    intros [= <- _ _]. split; [exact H|]. rewrite H. apply os_path_join_endswith.
Qed.

Lemma stored_paths_end_in_mp3_witness :
  let served := world_of (<[path_a := File 0 2048 true]> ∅) plenty in
  let job := Task "https://youtu.be/dQw4w9WgXcQ" "high"
                  (os_path_join app_folder (Uuid.str (Uuid.uuid4 0) +:+ ".mp3")) in
  Str.endswith path_a ".mp3" = true
  /\ Str.endswith (task_filename job) ".mp3" = true.
Proof.
  intros served job.
  destruct (stored_paths_end_in_mp3 app_folder) as [Hconvert Hdownload].
  split.
  - destruct (Hdownload token_a served path_a "audio/mpeg"
                "youtube_audio_19700102_010000.mp3") as [_ H];
      [vm_compute; reflexivity | exact H].
  - destruct (Hconvert (body_of "https://youtu.be/dQw4w9WgXcQ" None)
                (world_of ∅ plenty) job) as [H _];
      [vm_compute; left; reflexivity | exact H].
Defined.

(** ** Background extraction job *)

(** C8 (the code at the failing input).  The extractor fails after it has
    written 4096 bytes to the destination, and its captured output cannot be
    decoded, so [subprocess.run] raises [UnicodeDecodeError] and not
    [CalledProcessError].  The [except] clause of [download_audio] does not
    apply: the job ends with that exception after the one event of starting
    the extractor, no cleanup call is made, the partial file is still at the
    destination, and [GET /download/<token>] serves it. *)
Theorem undecodable_output_leaves_partial_file :
  let job := download_audio (extractor_undecodable 4096)
               "https://youtu.be/dQw4w9WgXcQ" "high" path_a (world_of ∅ plenty) in
  fst job
  = Raise (ValueError "'utf-8' codec can't decode byte 0xff in position 0: invalid start byte")
  /\ is_CalledProcessError
       (ValueError "'utf-8' codec can't decode byte 0xff in position 0: invalid start byte")
     = false
  /\ trace (snd job)
     = [Spawned (command_line ["--audio-quality"; "0"] path_a
                   "https://youtu.be/dQw4w9WgXcQ")]
  /\ files (snd job) !! path_a = Some (File 90000000000 4096 true)
  /\ exists_at (files (snd job)) path_a = true
  /\ fst (get_download app_folder token_a (snd job))
     = FileResponse path_a "audio/mpeg" "youtube_audio_19700102_010000.mp3".
Proof. vm_compute. repeat split; reflexivity. Qed.

(** The two failures the job cleans up after.  For every run of the job with a
    known quality: if [subprocess.run] returns (the extractor exited with
    status zero) and the file at the destination is larger than 100 MB, the job
    removes it and raises; if [subprocess.run] raises [CalledProcessError]
    (the extractor exited with another status), the job removes the file at
    the destination when there is one and raises; in both cases nothing exists
    at the destination afterwards. *)
Theorem extraction_failure_leaves_no_file
    (yt_dlp : list string -> gmap string node -> outcome unit * gmap string node)
    (url q filename : string) (opts : list string) (w : world)
    (result : outcome unit) (fs1 : gmap string node) :
  dict_get quality_options q = Some opts ->
  yt_dlp (command_line opts filename url) (files w) = (result, fs1) ->
  let job := download_audio yt_dlp url q filename w in
  (forall m size rd,
      result = Return tt ->
      stat fs1 filename = Some (m, size, rd) ->
      MAX_FILE_SIZE_MB * 1024 * 1024 < size ->
      fst job = Raise (ValueError "File size exceeds limit of 100MB")
      /\ files (snd job) = delete filename fs1
      /\ exists_at (files (snd job)) filename = false)
  /\ (forall err,
      result = Raise (CalledProcessError err) ->
      fst job = Raise (ValueError ("YouTube download failed: " +:+ err))
      /\ files (snd job) = (if exists_at fs1 filename then delete filename fs1 else fs1)
      /\ exists_at (files (snd job)) filename = false).
Proof.
  intros Hq Hrun job. subst job. split.
  - intros m size rd -> Hstat Hsize.
    destruct (download_audio_oversize yt_dlp url q filename opts w fs1 m size rd
                Hq Hrun Hstat Hsize) as [Hr Hf].
    rewrite Hr, Hf. repeat split. apply exists_at_delete.
  - intros err ->.
    destruct (download_audio_tool_failure yt_dlp url q filename opts w fs1 err
                Hq Hrun) as [Hr Hf].
    rewrite Hr, Hf. repeat split.
    destruct (exists_at fs1 filename) eqn:Hex; [apply exists_at_delete | exact Hex].
Qed.

Lemma extraction_failure_leaves_no_file_witness :
  let big := download_audio (extractor_writes 104857601)
               "https://youtu.be/dQw4w9WgXcQ" "high" path_a (world_of ∅ plenty) in
  let broken := download_audio (extractor_writes_then_fails 4096)
                  "https://youtu.be/dQw4w9WgXcQ" "low" path_a (world_of ∅ plenty) in
  (fst big = Raise (ValueError "File size exceeds limit of 100MB")
   /\ exists_at (files (snd big)) path_a = false)
  /\ (fst broken = Raise (ValueError "YouTube download failed: ERROR: Postprocessing failed")
      /\ exists_at (files (snd broken)) path_a = false).
Proof.
  intros big broken. split.
  - destruct (extraction_failure_leaves_no_file (extractor_writes 104857601)
                "https://youtu.be/dQw4w9WgXcQ" "high" path_a
                ["--audio-quality"; "0"] (world_of ∅ plenty) (Return tt)
                (<[path_a := File 90000000000 104857601 true]> ∅))
      as [Hbig _]; [reflexivity | vm_compute; reflexivity |].
    destruct (Hbig 90000000000 104857601 true) as (Hr & _ & He);
      [reflexivity | vm_compute; reflexivity | vm_compute; reflexivity |].
    split; [exact Hr | exact He].
  - destruct (extraction_failure_leaves_no_file (extractor_writes_then_fails 4096)
                "https://youtu.be/dQw4w9WgXcQ" "low" path_a
                ["--audio-quality"; "9"] (world_of ∅ plenty)
                (Raise (CalledProcessError "ERROR: Postprocessing failed"))
                (<[path_a := File 90000000000 4096 true]> ∅))
      as [_ Hbroken]; [reflexivity | vm_compute; reflexivity |].
    destruct (Hbroken "ERROR: Postprocessing failed") as (Hr & _ & He);
      [reflexivity |].
    split; [exact Hr | exact He].
Defined.

(** ** Retention loop *)

(** One turn of the loop: the sweep, a log line when it raised, and the
    wait. *)
Lemma cleanup_iteration_unfold (D : string) (w : world) :
  cleanup_iteration D w =
  (Return tt,
   slept 3600
     match fst (sweep D w) with
     | Return _ => snd (sweep D w)
     | Raise e => log (Printed ("Cleanup error: " +:+ str_exn e)) (snd (sweep D w))
     end).
Proof.
  unfold cleanup_iteration. run.
  destruct (sweep D w) as [[u|e] w1]; reflexivity.
Qed.



(** The loop never leaves by an exception: every turn ends in the wait. *)
Lemma cleanup_old_files_goes_on (D : string) (n : nat) (w : world) :
  fst (cleanup_old_files D n w) = Return tt.
Proof.
  revert w; induction n as [|n IH]; intros w; [reflexivity|].
  cbn [cleanup_old_files]. unfold bind at 1.
  rewrite cleanup_iteration_unfold. apply IH.
Qed.




(** ** Further properties *)

(** Every identifier the conversion endpoint can issue passes the lexical
    check of the download endpoint. *)
Theorem issued_token_is_accepted (i : N) :
  Re.match_anchored file_id_regex (Uuid.str (Uuid.uuid4 i)) = true.
Proof. apply token_shape_accepted, uuid_str_shape. Qed.


(** ** Download endpoint: the remaining branches *)

(** The containment test holds for every accepted token whose path is not a
    symbolic link. *)
Lemma download_contained (D file_id : string) (fs : gmap string node) :
  Re.match_anchored file_id_regex file_id = true ->
  (forall t, fs !! os_path_join D (file_id +:+ ".mp3") <> Some (Symlink t)) ->
  Str.startswith (realpath D fs (os_path_join D (file_id +:+ ".mp3")))
                 (realpath D fs D) = true.
Proof.
  intros Hm Hlink.
  destruct (file_id_head _ Hm) as (c & s' & -> & Hc).
  change (String c s' +:+ ".mp3") with (String c (s' +:+ ".mp3")) in *.
  destruct (os_path_join_relative D c (s' +:+ ".mp3") Hc) as (sep & Hj).
  rewrite Hj in *. now apply realpath_inside.
Qed.

(** For every token the pattern accepts whose path holds a regular file the
    process may read, the file is served: status 200, the path
    [<folder>/<token>.mp3], the media type [audio/mpeg], and a file name made
    of the time of the request only, after one more call ([os.access]). *)
Theorem download_serves_stored_file (D file_id : string) (w : world) (m s : Z) :
  Re.match_anchored file_id_regex file_id = true ->
  files w !! os_path_join D (file_id +:+ ".mp3") = Some (File m s true) ->
  get_download D file_id w
  = (FileResponse (os_path_join D (file_id +:+ ".mp3")) "audio/mpeg"
       ("youtube_audio_" +:+ Calendar.strftime_Ymd_HMS (now w) +:+ ".mp3"),
     after_access D file_id w).
Proof.
  intros Hm Hfile. rewrite get_download_accepted by exact Hm. unfold respond.
  rewrite download_unfold, Hm. cbn [negb].
  rewrite (download_contained D file_id (files w) Hm)
    by (intros t; rewrite Hfile; discriminate).
  unfold exists_at, stat. rewrite Hfile. reflexivity.
Qed.

Lemma download_serves_stored_file_witness :
  fst (get_download app_folder token_a stored_world)
  = FileResponse path_a "audio/mpeg" "youtube_audio_19700102_010000.mp3".
Proof.
  rewrite (download_serves_stored_file app_folder token_a stored_world 0 2048);
    vm_compute; reflexivity.
Defined.

(** For every token the pattern accepts whose path holds a regular file the
    process may not read, the answer is 500 with the fixed detail. *)
Theorem download_unreadable_file_500 (D file_id : string) (w : world) (m s : Z) :
  Re.match_anchored file_id_regex file_id = true ->
  files w !! os_path_join D (file_id +:+ ".mp3") = Some (File m s false) ->
  fst (get_download D file_id w)
  = JSONResponse 500
      [("detail", "Server cannot access the file. Please try again later.")].
Proof.
  intros Hm Hfile. rewrite get_download_accepted by exact Hm. unfold respond.
  rewrite download_unfold, Hm. cbn [negb].
  rewrite (download_contained D file_id (files w) Hm)
    by (intros t; rewrite Hfile; discriminate).
  unfold exists_at, stat. rewrite Hfile. reflexivity.
Qed.

Lemma download_unreadable_file_500_witness :
  fst (get_download app_folder token_a locked_world)
  = JSONResponse 500
      [("detail", "Server cannot access the file. Please try again later.")].
Proof.
  apply (download_unreadable_file_500 app_folder token_a locked_world 0 2048);
    vm_compute; reflexivity.
Defined.

(** What [download] leaves behind, in every branch. *)
Lemma download_world (D file_id : string) (w : world) :
  let w' := snd (download D file_id w) in
  w' = w \/ w' = after_resolve D file_id w \/ w' = after_lookup D file_id w
  \/ w' = after_access D file_id w.
Proof.
  cbn zeta. rewrite download_unfold.
  destruct (negb _); [now left|].
  destruct (negb _); [now right; left|].
  destruct (negb _); [now right; right; left|].
  destruct (stat _ _) as [[[m sz] [|]]|]; now right; right; right.
Qed.

Lemma get_download_world (D file_id : string) (w : world) :
  snd (get_download D file_id w) = snd (download D file_id w).
Proof.
  unfold get_download. destruct (routed file_id) eqn:Hr.
  - unfold respond.
    destruct (download D file_id w) as [[r|[s d| | | |]] w']; reflexivity.
  - destruct (Re.match_anchored file_id_regex file_id) eqn:Hm.
    + apply file_id_routed in Hm. congruence.
    + now rewrite download_rejected.
Qed.

(** [GET /download/{token}] only reads: for every token and every state, the
    files, the free space, the clock, the entropy and the background tasks are
    as before, and the trace has grown by at most four calls, each of them
    [os.path.realpath], [os.path.exists] or [os.access]. *)
Theorem download_only_reads (D file_id : string) (w : world) :
  let w' := snd (get_download D file_id w) in
  files w' = files w
  /\ free_space w' = free_space w
  /\ now w' = now w
  /\ draws w' = draws w
  /\ background_tasks w' = background_tasks w
  /\ exists calls,
       trace w' = calls ++ trace w
       /\ (length calls <= 4)%nat
       /\ List.forallb read_call calls = true.
Proof.
  cbn zeta. rewrite get_download_world.
  destruct (download_world D file_id w) as [-> | [-> | [-> | ->]]];
    (do 5 (split; [reflexivity|])).
  - exists []. repeat split; cbn; lia.
  - eexists [_; _]. repeat split; cbn; lia.
  - eexists [_; _; _]. repeat split; cbn; lia.
  - eexists [_; _; _; _]. repeat split; cbn; lia.
Qed.


(** ** Request model and conversion endpoint: the remaining behaviour *)

(** What building the request model has checked. *)
Lemma parse_sound (b : convert_body) (req : ConvertRequest) :
  parse_ConvertRequest b = inr req ->
  body_youtube_url b = Some (youtube_url req)
  /\ Re.match_anchored youtube_regex (youtube_url req) = true
  /\ quality req = quality_of b
  /\ known_quality (quality req) = true.
Proof.
  unfold parse_ConvertRequest, quality_of, known_quality.
  destruct (body_youtube_url b) as [u|]; [|discriminate].
  unfold validate_youtube_url.
  destruct (Re.match_anchored youtube_regex u) eqn:Hm; cbn [negb]; [|discriminate].
  destruct (body_quality b) as [q|].
  - unfold validate_quality.
    destruct (existsb _ _) eqn:Hq; cbn [negb]; [|discriminate].
    intros [= <-]. cbn [youtube_url quality]. repeat split; assumption.
  - intros [= <-]. cbn [youtube_url quality].
    repeat split; try assumption; reflexivity.
Qed.

(** A request model that was built carries the body's URL unchanged, that URL
    matches the pattern, its quality is the body's (high when absent) and is
    one of the three known ones. *)
Theorem parsed_request_sound (b : convert_body) (req : ConvertRequest) :
  parse_ConvertRequest b = inr req ->
  body_youtube_url b = Some (youtube_url req)
  /\ Re.match_anchored youtube_regex (youtube_url req) = true
  /\ quality req = quality_of b
  /\ known_quality (quality req) = true.
Proof.
  intros Hp. destruct (parse_sound b req Hp) as (Hu & Hm & Hq & Hk).
  repeat split; assumption.
Qed.

Lemma parsed_request_sound_witness :
  Re.match_anchored youtube_regex "https://youtu.be/dQw4w9WgXcQ" = true
  /\ known_quality "high" = true.
Proof.
  destruct (parsed_request_sound (body_of "https://youtu.be/dQw4w9WgXcQ" None)
              {| youtube_url := "https://youtu.be/dQw4w9WgXcQ"; quality := "high" |})
    as (_ & Hm & _ & Hq); [vm_compute; reflexivity|].
  split; [exact Hm | exact Hq].
Defined.

(** The qualities the validator lets through are the keys of
    [quality_options]. *)
Lemma known_quality_options (q : string) :
  known_quality q = true <-> exists opts, dict_get quality_options q = Some opts.
Proof.
  unfold known_quality, quality_options. cbn [existsb dict_get].
  destruct (String.eqb q "high"); [split; eauto|].
  destruct (String.eqb q "medium"); [split; eauto|].
  destruct (String.eqb q "low"); [split; eauto|].
  cbn [orb]. split; [discriminate | intros [opts H]; discriminate].
Qed.

(** [POST /convert] does nothing but schedule: for every body and every state
    the files, the free space and the clock are as before, and the list of
    background tasks has one more entry when the status is 200 and is
    unchanged otherwise. *)
Theorem convert_only_schedules (D : string) (b : convert_body) (w : world) :
  let r := post_convert D b w in
  files (snd r) = files w
  /\ free_space (snd r) = free_space w
  /\ now (snd r) = now w
  /\ length (new_tasks w (snd r))
     = if status (fst r) =? 200 then 1%nat else 0%nat.
Proof.
  cbn zeta. unfold new_tasks.
  destruct (parse_ConvertRequest b) as [errors|req] eqn:Hp.
  - rewrite (post_convert_invalid D b errors w Hp). cbn [fst snd status].
    rewrite drop_all. repeat split.
  - rewrite (post_convert_valid D b req w Hp).
    destruct (_ <? _);
      cbn [fst snd status files free_space now background_tasks scheduled
           after_headroom_check log drawn].
    + rewrite drop_all. repeat split.
    + rewrite drop_app_length. repeat split.
Qed.

(** ** Background extraction job: all its ways out *)

(** [download_audio] with a known quality, as one case distinction on how the
    extractor ended and what it left at the destination. *)
Lemma download_audio_unfold
    (yt_dlp : list string -> gmap string node -> outcome unit * gmap string node)
    (url q filename : string) (opts : list string) (w : world) :
  dict_get quality_options q = Some opts ->
  let command := command_line opts filename url in
  let fs1 := snd (yt_dlp command (files w)) in
  let w1 := with_files fs1 (log (Spawned command) w) in
  let w2 := log (Syscall "os.path.exists" filename) w1 in
  let w3 := log (Syscall "os.path.getsize" filename) w2 in
  download_audio yt_dlp url q filename w =
  match fst (yt_dlp command (files w)) with
  | Return _ =>
      match stat fs1 filename with
      | Some (_, size, _) =>
          if MAX_FILE_SIZE_MB * 1024 * 1024 <? size
          then (Raise (ValueError "File size exceeds limit of 100MB"),
                with_files (delete filename fs1)
                  (log (Syscall "os.remove" filename) w3))
          else (Return tt, w3)
      | None => (Raise (FileNotFoundError "Failed to create output file"), w2)
      end
  | Raise (CalledProcessError err) =>
      if exists_at fs1 filename
      then (Raise (ValueError ("YouTube download failed: " +:+ err)),
            with_files (delete filename fs1)
              (log (Syscall "os.remove" filename) w2))
      else (Raise (ValueError ("YouTube download failed: " +:+ err)), w2)
  | Raise e => (Raise e, w1)
  end.
Proof.
  intros Hq command fs1 w1 w2 w3. subst w3 w2 w1 fs1.
  unfold download_audio, getitem, subprocess_run. rewrite Hq. run.
  fold command.
  destruct (yt_dlp command (files w)) as [[u|e] fs1]; cbn [fst snd]; run.
  - unfold exists_at at 1.
    destruct (stat fs1 filename) as [[[m size] rd]|] eqn:Hs; run; [|reflexivity].
    rewrite Hs. run. rewrite file_size_over.
    destruct (_ <? _); [|reflexivity].
    destruct (stat_present _ _ _ Hs) as [n Hn].
    unfold os_remove. run. now rewrite Hn.
  - destruct e as [s d|m|k|m|err]; run; try reflexivity.
    destruct (exists_at fs1 filename) eqn:Hex; run; [|reflexivity].
    destruct (exists_at_lookup _ _ Hex) as [n Hn].
    unfold os_remove. run. now rewrite Hn.
Qed.

(** A quality that is no key of [quality_options] ends the job with
    [KeyError] before anything is done: the extractor is not started and the
    state is unchanged. *)
Theorem download_audio_unknown_quality
    (yt_dlp : list string -> gmap string node -> outcome unit * gmap string node)
    (url q filename : string) (w : world) :
  dict_get quality_options q = None ->
  download_audio yt_dlp url q filename w = (Raise (KeyError q), w).
Proof.
  intros Hq. unfold download_audio, getitem. rewrite Hq. reflexivity.
Qed.

Lemma download_audio_unknown_quality_witness :
  download_audio extractor_idle "https://youtu.be/dQw4w9WgXcQ" "ultra" path_a
    (world_of ∅ plenty)
  = (Raise (KeyError "ultra"), world_of ∅ plenty).
Proof.
  apply download_audio_unknown_quality. reflexivity.
Defined.

(** A request model that was built never makes the job fail on the quality
    table: for every extractor and every destination, the lookup succeeds and
    the job starts the extractor with the command line of that quality. *)
Theorem validated_job_starts_extractor
    (yt_dlp : list string -> gmap string node -> outcome unit * gmap string node)
    (b : convert_body) (req : ConvertRequest) (filename : string) (w : world) :
  parse_ConvertRequest b = inr req ->
  exists opts later,
    dict_get quality_options (quality req) = Some opts
    /\ trace (snd (download_audio yt_dlp (youtube_url req) (quality req)
                     filename w))
       = later ++ Spawned (command_line opts filename (youtube_url req)) :: trace w.
Proof.
  intros Hp. destruct (parse_sound b req Hp) as (_ & _ & _ & Hq).
  apply known_quality_options in Hq as [opts Hq].
  exists opts.
  rewrite (download_audio_unfold yt_dlp _ _ filename opts w Hq).
  destruct (yt_dlp _ (files w)) as [[u|e] fs1]; cbn [fst snd].
  - destruct (stat fs1 filename) as [[[m sz] r]|].
    + destruct (_ <? _); [eexists [_; _; _] | eexists [_; _]]; now split.
    + eexists [_]; now split.
  - destruct e as [s d|m|k|m|err]; try (exists []; now split).
    destruct (exists_at fs1 filename); [eexists [_; _] | eexists [_]]; now split.
Qed.

Lemma validated_job_starts_extractor_witness :
  exists opts later,
    dict_get quality_options "high" = Some opts
    /\ trace (snd (download_audio extractor_idle "https://youtu.be/dQw4w9WgXcQ"
                     "high" path_a (world_of ∅ plenty)))
       = later ++ Spawned (command_line opts path_a "https://youtu.be/dQw4w9WgXcQ")
                  :: trace (world_of ∅ plenty).
Proof.
  apply (validated_job_starts_extractor extractor_idle
           (body_of "https://youtu.be/dQw4w9WgXcQ" None)
           {| youtube_url := "https://youtu.be/dQw4w9WgXcQ"; quality := "high" |}).
  vm_compute. reflexivity.
Defined.

(** The job succeeds exactly within the limit: when [subprocess.run] returns
    (the extractor exited with status zero) and the file at the destination
    has at most 100 MB (104857600 bytes, the bound included), the job returns
    and keeps the file system as the extractor left it. *)
Theorem download_audio_keeps_valid_output
    (yt_dlp : list string -> gmap string node -> outcome unit * gmap string node)
    (url q filename : string) (opts : list string) (w : world)
    (fs1 : gmap string node) (m size : Z) (rd : bool) :
  dict_get quality_options q = Some opts ->
  yt_dlp (command_line opts filename url) (files w) = (Return tt, fs1) ->
  stat fs1 filename = Some (m, size, rd) ->
  size <= MAX_FILE_SIZE_MB * 1024 * 1024 ->
  fst (download_audio yt_dlp url q filename w) = Return tt
  /\ files (snd (download_audio yt_dlp url q filename w)) = fs1.
Proof.
  intros Hq Hrun Hstat Hsize.
  rewrite (download_audio_unfold yt_dlp url q filename opts w Hq), Hrun.
  cbn [fst snd]. rewrite Hstat.
  destruct (Z.ltb_spec (MAX_FILE_SIZE_MB * 1024 * 1024) size); [lia|].
  split; reflexivity.
Qed.

Lemma download_audio_keeps_valid_output_witness :
  let job := download_audio (extractor_writes 104857600)
               "https://youtu.be/dQw4w9WgXcQ" "medium" path_a (world_of ∅ plenty) in
  fst job = Return tt
  /\ files (snd job) = <[path_a := File 90000000000 104857600 true]> ∅.
Proof.
  apply (download_audio_keeps_valid_output (extractor_writes 104857600)
           "https://youtu.be/dQw4w9WgXcQ" "medium" path_a ["--audio-quality"; "5"]
           (world_of ∅ plenty) _ 90000000000 104857600 true);
    vm_compute; try reflexivity. discriminate.
Defined.

(** When [subprocess.run] returns (the extractor exited with status zero) and
    nothing is at the destination, the job raises [FileNotFoundError] and
    leaves the file system as the extractor left it. *)
Theorem download_audio_missing_output
    (yt_dlp : list string -> gmap string node -> outcome unit * gmap string node)
    (url q filename : string) (opts : list string) (w : world)
    (fs1 : gmap string node) :
  dict_get quality_options q = Some opts ->
  yt_dlp (command_line opts filename url) (files w) = (Return tt, fs1) ->
  exists_at fs1 filename = false ->
  fst (download_audio yt_dlp url q filename w)
  = Raise (FileNotFoundError "Failed to create output file")
  /\ files (snd (download_audio yt_dlp url q filename w)) = fs1.
Proof.
  intros Hq Hrun Hex.
  rewrite (download_audio_unfold yt_dlp url q filename opts w Hq), Hrun.
  cbn [fst snd]. unfold exists_at in Hex.
  destruct (stat fs1 filename); [discriminate|]. split; reflexivity.
Qed.

Lemma download_audio_missing_output_witness :
  fst (download_audio extractor_idle "https://youtu.be/dQw4w9WgXcQ" "low" path_a
         (world_of ∅ plenty))
  = Raise (FileNotFoundError "Failed to create output file").
Proof.
  apply (download_audio_missing_output extractor_idle
           "https://youtu.be/dQw4w9WgXcQ" "low" path_a ["--audio-quality"; "9"]
           (world_of ∅ plenty) ∅); reflexivity.
Defined.

(** An exception of the extractor run that is not [CalledProcessError] (the
    program cannot be started, say) leaves the job as it is: the [except]
    clause does not apply, nothing is cleaned up, and the only event is the
    start of the extractor. *)
Theorem download_audio_other_exception
    (yt_dlp : list string -> gmap string node -> outcome unit * gmap string node)
    (url q filename : string) (opts : list string) (w : world)
    (e : exn) (fs1 : gmap string node) :
  dict_get quality_options q = Some opts ->
  yt_dlp (command_line opts filename url) (files w) = (Raise e, fs1) ->
  is_CalledProcessError e = false ->
  download_audio yt_dlp url q filename w
  = (Raise e, with_files fs1 (log (Spawned (command_line opts filename url)) w)).
Proof.
  intros Hq Hrun He.
  rewrite (download_audio_unfold yt_dlp url q filename opts w Hq), Hrun.
  cbn [fst snd]. destruct e; try reflexivity. discriminate He.
Qed.

Lemma download_audio_other_exception_witness :
  fst (download_audio extractor_missing "https://youtu.be/dQw4w9WgXcQ" "high"
         path_a (world_of ∅ plenty))
  = Raise (FileNotFoundError "yt-dlp").
Proof.
  rewrite (download_audio_other_exception extractor_missing
             "https://youtu.be/dQw4w9WgXcQ" "high" path_a ["--audio-quality"; "0"]
             (world_of ∅ plenty) (FileNotFoundError "yt-dlp") ∅); reflexivity.
Defined.

(** The job touches the destination only: for every extractor and every path
    other than the destination, what the path holds after the job is what the
    extractor left there. *)
Theorem download_audio_touches_destination_only
    (yt_dlp : list string -> gmap string node -> outcome unit * gmap string node)
    (url q filename : string) (opts : list string) (w : world) (p : string) :
  dict_get quality_options q = Some opts ->
  p <> filename ->
  files (snd (download_audio yt_dlp url q filename w)) !! p
  = snd (yt_dlp (command_line opts filename url) (files w)) !! p.
Proof.
  intros Hq Hp.
  rewrite (download_audio_unfold yt_dlp url q filename opts w Hq).
  destruct (yt_dlp _ (files w)) as [[u|e] fs1]; cbn [fst snd].
  - destruct (stat fs1 filename) as [[[m sz] r]|]; [|reflexivity].
    destruct (_ <? _); [|reflexivity].
    cbn [snd files with_files]. now rewrite lookup_delete_ne.
  - destruct e as [s d|m|k|m|err]; try reflexivity.
    destruct (exists_at fs1 filename); [|reflexivity].
    cbn [snd files with_files]. now rewrite lookup_delete_ne.
Qed.

Lemma download_audio_touches_destination_only_witness :
  files (snd (download_audio (extractor_writes_then_fails 4096)
                "https://youtu.be/dQw4w9WgXcQ" "high" path_a shared_world))
    !! "/etc/passwd"
  = Some (File 0 2048 true).
Proof.
  rewrite (download_audio_touches_destination_only (extractor_writes_then_fails 4096)
             "https://youtu.be/dQw4w9WgXcQ" "high" path_a ["--audio-quality"; "0"]
             shared_world "/etc/passwd");
    [vm_compute; reflexivity | reflexivity | vm_compute; discriminate].
Defined.

(** ** Retention loop: what it leaves alone *)



(** ** What the two patterns accept *)

Lemma all_ascii_complete (c : ascii) : In c all_ascii.
Proof.
  unfold all_ascii. rewrite <- (ascii_nat_embedding c).
  apply in_map, in_seq. pose proof (nat_ascii_bounded c). lia.
Qed.

Lemma classes_within_Class (q p : ascii -> bool) (c : ascii) :
  classes_within q (Re.Class p) = true -> p c = true -> q c = true.
Proof.
  cbn [classes_within]. intros H Hp.
  pose proof (proj1 (List.forallb_forall _ _) H c (all_ascii_complete c)) as Hc.
  cbn beta in Hc. now rewrite Hp in Hc.
Qed.

Lemma classes_within_cat (q : ascii -> bool) (r1 r2 : Re.regex) :
  classes_within q r1 = true -> classes_within q r2 = true ->
  classes_within q (Re.cat r1 r2) = true.
Proof.
  intros H1 H2. destruct r1; cbn [Re.cat classes_within] in *;
    try reflexivity; try assumption; now rewrite ?H1, ?H2.
Qed.

Lemma classes_within_alt (q : ascii -> bool) (r1 r2 : Re.regex) :
  classes_within q r1 = true -> classes_within q r2 = true ->
  classes_within q (Re.alt r1 r2) = true.
Proof.
  intros H1 H2. destruct r1, r2; cbn [Re.alt classes_within] in *;
    try reflexivity; try assumption; now rewrite ?H1, ?H2.
Qed.

Lemma classes_within_deriv (q : ascii -> bool) (c : ascii) (r : Re.regex) :
  classes_within q r = true -> classes_within q (Re.deriv c r) = true.
Proof.
  induction r as [| |p|r1 IH1 r2 IH2|r1 IH1 r2 IH2|r1 IH1];
    cbn [Re.deriv]; intros H; try reflexivity.
  - now destruct (p c).
  - cbn [classes_within] in H. apply andb_true_iff in H as [H1 H2].
    apply classes_within_alt.
    + apply classes_within_cat; auto.
    + destruct (Re.nullable r1); auto.
  - cbn [classes_within] in H. apply andb_true_iff in H as [H1 H2].
    apply classes_within_alt; auto.
  - cbn [classes_within] in H. apply classes_within_cat; auto.
Qed.

(** A character outside every class of [r] starts no match. *)
Lemma deriv_outside (q : ascii -> bool) (c : ascii) (r : Re.regex) :
  classes_within q r = true -> q c = false -> Re.deriv c r = Re.Void.
Proof.
  intros H Hc.
  induction r as [| |p|r1 IH1 r2 IH2|r1 IH1 r2 IH2|r1 IH1];
    cbn [Re.deriv]; try reflexivity.
  - destruct (p c) eqn:Hp; [|reflexivity].
    rewrite (classes_within_Class q p c H Hp) in Hc. discriminate.
  - cbn [classes_within] in H. apply andb_true_iff in H as [H1 H2].
    rewrite (IH1 H1), (IH2 H2). now destruct (Re.nullable r1).
  - cbn [classes_within] in H. apply andb_true_iff in H as [H1 H2].
    now rewrite (IH1 H1), (IH2 H2).
  - cbn [classes_within] in H. now rewrite (IH1 H).
Qed.

(** Every character of a matched string lies in a class of the pattern. *)
Lemma fullmatch_within (q : ascii -> bool) (s : string) (r : Re.regex) :
  classes_within q r = true -> Re.fullmatch r s = true -> Str.forallb q s = true.
Proof.
  revert r; induction s as [|c s IH]; intros r H Hm; [reflexivity|].
  cbn [Re.fullmatch] in Hm. cbn [Str.forallb].
  destruct (q c) eqn:Hc.
  - cbn [andb]. apply (IH (Re.deriv c r)); [now apply classes_within_deriv | exact Hm].
  - rewrite (deriv_outside q c r H Hc), fullmatch_Void in Hm. discriminate.
Qed.

(** A URL the validator lets through is returned unchanged and holds no white
    space, except that its last character may be a line feed (which [$] lets
    pass). *)
Theorem accepted_url_has_no_space (v v' : string) :
  validate_youtube_url v = Return v' ->
  v' = v
  /\ (Str.forallb non_space v = true
      \/ exists t, v = t +:+ String Str.LF EmptyString
                   /\ Str.forallb non_space t = true).
Proof.
  unfold validate_youtube_url.
  destruct (Re.match_anchored youtube_regex v) eqn:Hm; cbn [negb]; [|discriminate].
  intros [= <-]. split; [reflexivity|].
  assert (classes_within non_space youtube_regex = true) as Hcls
    by (vm_compute; reflexivity).
  unfold Re.match_anchored in Hm. apply orb_true_iff in Hm as [Hm|Hm].
  - left. exact (fullmatch_within non_space v youtube_regex Hcls Hm).
  - right. destruct (Str.strip_final_newline v) as [t|] eqn:Ht; [|discriminate].
    exists t. split; [now apply strip_final_newline_Some|].
    exact (fullmatch_within non_space t youtube_regex Hcls Hm).
Qed.

Lemma accepted_url_has_no_space_witness :
  Str.forallb non_space "https://youtu.be/dQw4w9WgXcQ?t=10" = true
  \/ exists t, "https://youtu.be/dQw4w9WgXcQ?t=10" = t +:+ String Str.LF EmptyString
               /\ Str.forallb non_space t = true.
Proof.
  destruct (accepted_url_has_no_space "https://youtu.be/dQw4w9WgXcQ?t=10"
              "https://youtu.be/dQw4w9WgXcQ?t=10") as [_ H];
    [vm_compute; reflexivity | exact H].
Defined.

(** A URL the pattern accepts is not empty and begins with [h], [w] or [y];
    in particular it never begins with a hyphen, so the extractor cannot take
    the last argument of its command line for an option. *)
Theorem accepted_url_head (v : string) :
  Re.match_anchored youtube_regex v = true ->
  exists c rest, v = String c rest /\ url_head c = true /\ c <> "-"%char.
Proof.
  assert (forall c s, Re.fullmatch youtube_regex (String c s) = true ->
                      url_head c = true) as Hhead.
  { intros c s Hm. cbn [Re.fullmatch] in Hm.
    assert (List.forallb
              (fun c => is_Void (Re.deriv c youtube_regex) || url_head c)
              all_ascii = true) as Hall by (vm_compute; reflexivity).
    pose proof (proj1 (List.forallb_forall _ _) Hall c (all_ascii_complete c)) as Hc.
    cbn beta in Hc. apply orb_true_iff in Hc as [Hv|Hc]; [|exact Hc].
    destruct (Re.deriv c youtube_regex); try discriminate Hv.
    rewrite fullmatch_Void in Hm. discriminate. }
  assert (forall c, url_head c = true -> c <> "-"%char) as Hne
    by (intros c Hc ->; discriminate Hc).
  intros Hm. unfold Re.match_anchored in Hm. apply orb_true_iff in Hm as [Hm|Hm].
  - destruct v as [|c rest]; [discriminate Hm|].
    exists c, rest. pose proof (Hhead c rest Hm). auto.
  - destruct (Str.strip_final_newline v) as [t|] eqn:Ht; [|discriminate].
    apply strip_final_newline_Some in Ht. subst v.
    destruct t as [|c rest]; [discriminate Hm|].
    exists c, (rest +:+ String Str.LF EmptyString).
    pose proof (Hhead c rest Hm). auto.
Qed.

Lemma accepted_url_head_witness :
  exists c rest, "youtu.be/dQw4w9WgXcQ" = String c rest
                 /\ url_head c = true /\ c <> "-"%char.
Proof.
  apply accepted_url_head. vm_compute. reflexivity.
Defined.

(** What the pattern of [download] accepts: exactly the strings of 36
    characters, each a lower-case hexadecimal digit or a hyphen, and those
    strings followed by one line feed. *)
Theorem download_pattern_language (s : string) :
  Re.match_anchored file_id_regex s = true
  <-> token_shape s = true
      \/ exists t, s = t +:+ String Str.LF EmptyString /\ token_shape t = true.
Proof.
  rewrite file_id_check. split.
  - intros H. apply orb_true_iff in H as [H|H]; [now left|].
    destruct (Str.strip_final_newline s) as [t|] eqn:Ht; [|discriminate].
    right. exists t. split; [now apply strip_final_newline_Some | exact H].
  - intros [H|(t & -> & H)]; [now rewrite H|].
    rewrite strip_final_newline_append, H. apply orb_true_r.
Qed.

(** ** From conversion to download *)

(** An accepted request, with the state it leaves and the one task it adds. *)
Lemma post_convert_accepted (D : string) (b : convert_body) (url : string)
    (w : world) :
  body_youtube_url b = Some url ->
  Re.match_anchored youtube_regex url = true ->
  known_quality (quality_of b) = true ->
  MAX_FILE_SIZE_MB * 1024 * 1024 * 2 <= free_space w ->
  let req := {| youtube_url := url; quality := quality_of b |} in
  post_convert D b w
  = (JSONResponse 200 (processing_body (fresh_id w)),
     scheduled (job_of D req w) (after_headroom_check D req w))
  /\ new_tasks w (snd (post_convert D b w)) = [job_of D req w].
Proof.
  intros Hu Hm Hq Hfree req.
  rewrite (post_convert_valid D b req w (parse_accepts b url Hu Hm Hq)).
  destruct (Z.ltb_spec (free_space w) (MAX_FILE_SIZE_MB * 1024 * 1024 * 2)); [lia|].
  split; [reflexivity|]. unfold new_tasks.
  cbn [snd background_tasks scheduled after_headroom_check log drawn].
  apply drop_app_length.
Qed.

(** End to end, the good case.  A valid request is accepted with a token; the
    scheduled job runs; the extractor exits with status zero and leaves a
    readable regular file of at most 100 MB at the destination; then
    [GET /download/<token>] serves that file with the media type [audio/mpeg]. *)
Theorem convert_then_download_serves
    (D : string)
    (yt_dlp : list string -> gmap string node -> outcome unit * gmap string node)
    (b : convert_body) (url : string) (w : world) (opts : list string)
    (fs1 : gmap string node) (m size : Z) :
  body_youtube_url b = Some url ->
  Re.match_anchored youtube_regex url = true ->
  known_quality (quality_of b) = true ->
  MAX_FILE_SIZE_MB * 1024 * 1024 * 2 <= free_space w ->
  let token := fresh_id w in
  let dest := os_path_join D (token +:+ ".mp3") in
  let w1 := snd (post_convert D b w) in
  let w2 := snd (run_background_tasks yt_dlp (new_tasks w w1) w1) in
  dict_get quality_options (quality_of b) = Some opts ->
  yt_dlp (command_line opts dest url) (files w) = (Return tt, fs1) ->
  fs1 !! dest = Some (File m size true) ->
  size <= MAX_FILE_SIZE_MB * 1024 * 1024 ->
  fst (get_download D token w2)
  = FileResponse dest "audio/mpeg"
      ("youtube_audio_" +:+ Calendar.strftime_Ymd_HMS (now w) +:+ ".mp3").
Proof.
  intros Hu Hm Hq Hfree token dest w1 w2 Hopts Hrun Hfile Hsize.
  destruct (post_convert_accepted D b url w Hu Hm Hq Hfree) as [Hpost Hnew].
  cbn zeta in Hpost, Hnew. subst w2 w1. rewrite Hnew, Hpost. cbn [snd].
  cbn [run_background_tasks job_of task_url task_quality task_filename
       youtube_url quality].
  fold token. fold dest. unfold bind at 1.
  rewrite (download_audio_unfold yt_dlp url (quality_of b) dest opts _ Hopts).
  cbn [files scheduled after_headroom_check log drawn]. rewrite Hrun.
  cbn [fst snd]. unfold stat at 1. rewrite Hfile.
  destruct (Z.ltb_spec (MAX_FILE_SIZE_MB * 1024 * 1024) size); [lia|].
  unfold ret. cbn [snd].
  assert (Re.match_anchored file_id_regex token = true) as Htok
    by apply token_shape_accepted, uuid_str_shape.
  rewrite get_download_accepted by exact Htok.
  unfold respond. rewrite download_unfold, Htok. fold dest.
  cbn [negb files now log with_files scheduled after_headroom_check drawn].
  pose proof (download_contained D token fs1 Htok) as Hin. fold dest in Hin.
  rewrite Hin by (intros t; rewrite Hfile; discriminate).
  unfold exists_at, stat. rewrite Hfile. reflexivity.
Qed.

Lemma convert_then_download_serves_witness :
  let b := body_of "https://youtu.be/dQw4w9WgXcQ" None in
  let w := world_of ∅ plenty in
  let w1 := snd (post_convert app_folder b w) in
  let w2 := snd (run_background_tasks (extractor_writes 4096) (new_tasks w w1) w1) in
  status (fst (get_download app_folder (fresh_id w) w2)) = 200.
Proof.
  intros b w w1 w2. subst w2 w1.
  rewrite (convert_then_download_serves app_folder (extractor_writes 4096) b
             "https://youtu.be/dQw4w9WgXcQ" w ["--audio-quality"; "0"]
             (<[os_path_join app_folder (fresh_id w +:+ ".mp3")
                := File 90000000000 4096 true]> ∅) 90000000000 4096);
    vm_compute; try reflexivity; discriminate.
Defined.

(** End to end, the bad case.  A valid request is accepted with a token; the
    scheduled job runs; [subprocess.run] raises [CalledProcessError] (the
    extractor exited with a non-zero status and its output was decoded),
    leaving nothing or a regular file at the destination; then
    [GET /download/<token>] answers 404. *)
Theorem convert_then_failed_job_404
    (D : string)
    (yt_dlp : list string -> gmap string node -> outcome unit * gmap string node)
    (b : convert_body) (url : string) (w : world) (opts : list string)
    (fs1 : gmap string node) (err : string) :
  body_youtube_url b = Some url ->
  Re.match_anchored youtube_regex url = true ->
  known_quality (quality_of b) = true ->
  MAX_FILE_SIZE_MB * 1024 * 1024 * 2 <= free_space w ->
  let token := fresh_id w in
  let dest := os_path_join D (token +:+ ".mp3") in
  let w1 := snd (post_convert D b w) in
  let w2 := snd (run_background_tasks yt_dlp (new_tasks w w1) w1) in
  dict_get quality_options (quality_of b) = Some opts ->
  yt_dlp (command_line opts dest url) (files w) = (Raise (CalledProcessError err), fs1) ->
  (fs1 !! dest = None \/ exists m size rd, fs1 !! dest = Some (File m size rd)) ->
  fst (get_download D token w2)
  = JSONResponse 404
      [("detail", "File not found. It might still be processing or has expired.")].
Proof.
  intros Hu Hm Hq Hfree token dest w1 w2 Hopts Hrun Hleft.
  destruct (post_convert_accepted D b url w Hu Hm Hq Hfree) as [Hpost Hnew].
  cbn zeta in Hpost, Hnew. subst w2 w1. rewrite Hnew, Hpost. cbn [snd].
  cbn [run_background_tasks job_of task_url task_quality task_filename
       youtube_url quality].
  fold token. fold dest. unfold bind at 1.
  rewrite (download_audio_unfold yt_dlp url (quality_of b) dest opts _ Hopts).
  cbn [files scheduled after_headroom_check log drawn]. rewrite Hrun.
  cbn [fst snd].
  assert (Re.match_anchored file_id_regex token = true) as Htok
    by apply token_shape_accepted, uuid_str_shape.
  rewrite get_download_accepted by exact Htok. unfold respond.
  destruct (exists_at fs1 dest) eqn:Hex; cbn [snd].
  - rewrite (download_absent D token _ Htok); [reflexivity|].
    fold dest. cbn [files with_files]. apply lookup_delete_eq.
  - rewrite (download_absent D token _ Htok); [reflexivity|].
    fold dest. cbn [files with_files log].
    destruct Hleft as [Hnone|(m & size & rd & Hfile)]; [exact Hnone|].
    unfold exists_at, stat in Hex. rewrite Hfile in Hex. discriminate.
Qed.

Lemma convert_then_failed_job_404_witness :
  let b := body_of "https://youtu.be/dQw4w9WgXcQ" None in
  let w := world_of ∅ plenty in
  let w1 := snd (post_convert app_folder b w) in
  let w2 := snd (run_background_tasks (extractor_writes_then_fails 4096)
                   (new_tasks w w1) w1) in
  status (fst (get_download app_folder (fresh_id w) w2)) = 404.
Proof.
  intros b w w1 w2. subst w2 w1.
  rewrite (convert_then_failed_job_404 app_folder (extractor_writes_then_fails 4096) b
             "https://youtu.be/dQw4w9WgXcQ" w ["--audio-quality"; "0"]
             (<[os_path_join app_folder (fresh_id w +:+ ".mp3")
                := File 90000000000 4096 true]> ∅) "ERROR: Postprocessing failed");
    try (vm_compute; reflexivity).
  - vm_compute. discriminate.
  - right. exists 90000000000, 4096, true. apply lookup_insert_eq.
Defined.
